(** * generate_red_profile.py: the ICC profile generator, embedded and verified

    The script builds one matrix/TRC display profile in memory (header,
    tag table, padded tag payloads), patches the total size into the first
    four bytes and writes the bytes to [red_plus_22.icc].

    Embedding conventions:
    - Python [int] is [Z]; [bytes] is [list byte]; [str] is the list of its
      code points ([list Z]).
    - A Python call that may raise returns [result A]; the exceptions that
      the primitives used by the script can raise are the constructors of
      [exn].
    - Python [float] is IEEE-754 binary64, computed with the Standard
      Library's executable specification [SpecFloat] (round to nearest,
      ties to even), so float expressions evaluate bit-exactly.
    - The file system and the console touched by [main] are fields of an
      explicit [World] that is threaded through. *)

From Stdlib Require Import ZArith QArith Qround Lia List String Ascii SpecFloat
  DecimalString.
From Stdlib.Strings Require Import Byte.
From stdpp Require Import base list strings gmap.

Open Scope Z_scope.

(** ** Python values and exceptions *)

Abbreviation bytes := (list byte).

(** A [str]: the sequence of its Unicode code points. *)
Abbreviation str := (list Z).

Inductive exn : Type :=
| OverflowError (msg : string)
| ValueError (msg : string)
| ZeroDivisionError (msg : string)
| StructError (msg : string)
| UnicodeEncodeError (encoding : string) (object : str)
                     (start stop : nat) (reason : string).

Inductive result (A : Type) : Type :=
| Ok (a : A)
| Raise (e : exn).
Arguments Ok {A} a.
Arguments Raise {A} e.

Definition bind {A B : Type} (m : result A) (k : A -> result B) : result B :=
  match m with
  | Ok a => k a
  | Raise e => Raise e
  end.

Notation "'let*' x ':=' m 'in' k" := (bind m (fun x => k))
  (at level 10, x name, m at level 100, k at level 200).

(** ** Byte strings *)

#[global] Instance byte_eq_decision : EqDecision byte := byte_eq_dec.

Module Bytes.

Definition of_Z (z : Z) : byte :=
  default x00 (Byte.of_N (Z.to_N (z mod 256))).

Definition to_Z (b : byte) : Z := Z.of_N (Byte.to_N b).

(** A bytes literal [b'...'] whose characters are all below 256. *)
Definition lit (s : string) : bytes := list_byte_of_string s.

(** [len(data)] as a Python int. *)
Definition len (data : bytes) : Z := Z.of_nat (length data).

(** [b'\x00' * n] *)
Definition zeros (n : Z) : bytes := replicate (Z.to_nat n) x00.

(** [b''.join(parts)] *)
Definition join (parts : list bytes) : bytes := concat parts.

(** [int.from_bytes(data, 'big')], the reading side of a big-endian field. *)
Definition to_int (data : bytes) : Z :=
  fold_left (fun acc b => acc * 256 + to_Z b) data 0.

(** [data[off : off + n]] *)
Definition slice (off n : Z) (data : bytes) : bytes :=
  take (Z.to_nat n) (drop (Z.to_nat off) data).

End Bytes.

(** ** struct.pack with big-endian formats *)

Module Struct.

(** An int that does not convert to a C [unsigned long] (64 bits on the
    platforms CPython's [struct] is modelled for): negative, or 2^64 and
    above.  [struct] reports it as "argument out of range"; a value that
    converts and is too large for the format gets the format's message. *)
Definition not_unsigned_long (v : Z) : bool :=
  (v <? 0) || (18446744073709551615 <? v).

(** ['>I']: unsigned 32-bit big-endian. *)
Definition pack_I (v : Z) : result bytes :=
  if (0 <=? v) && (v <=? 4294967295) then
    Ok [Bytes.of_Z (Z.land (Z.shiftr v 24) 255);
        Bytes.of_Z (Z.land (Z.shiftr v 16) 255);
        Bytes.of_Z (Z.land (Z.shiftr v 8) 255);
        Bytes.of_Z (Z.land v 255)]
  else if not_unsigned_long v then
    Raise (StructError "argument out of range")
  else Raise (StructError "'I' format requires 0 <= number <= 4294967295").

(** ['>H']: unsigned 16-bit big-endian. *)
Definition pack_H (v : Z) : result bytes :=
  if (0 <=? v) && (v <=? 65535) then
    Ok [Bytes.of_Z (Z.land (Z.shiftr v 8) 255);
        Bytes.of_Z (Z.land v 255)]
  else if not_unsigned_long v then
    Raise (StructError "argument out of range")
  else Raise (StructError "'H' format requires 0 <= number <= 65535").

(** ['>III'] *)
Definition pack_III (x y z : Z) : result bytes :=
  let* bx := pack_I x in
  let* by_ := pack_I y in
  let* bz := pack_I z in
  Ok (bx ++ by_ ++ bz).

End Struct.

(** ** Python floats (binary64) *)

Module Float.

Definition prec : Z := 53.
Definition emax : Z := 1024.

(** [float(n)] for an int operand of a float operation: correctly rounded,
    [OverflowError] when the int is too large. *)
Definition of_int (n : Z) : result spec_float :=
  match binary_normalize prec emax n 0 false with
  | S754_infinity _ => Raise (OverflowError "int too large to convert to float")
  | f => Ok f
  end.

Definition is_zero (f : spec_float) : bool :=
  match f with S754_zero _ => true | _ => false end.

(** [x / y] on floats. *)
Definition truediv (x y : spec_float) : result spec_float :=
  if is_zero y then Raise (ZeroDivisionError "float division by zero")
  else Ok (SFdiv prec emax x y).

(** [x * y] on floats. *)
Definition mul (x y : spec_float) : spec_float := SFmul prec emax x y.

(** [int(x)]: truncation toward zero. *)
Definition to_int (x : spec_float) : result Z :=
  match x with
  | S754_zero _ => Ok 0
  | S754_finite s m e =>
      let mag := match e with
                 | Zneg p => Z.shiftr (Zpos m) (Zpos p)
                 | _ => Z.shiftl (Zpos m) e
                 end in
      Ok (if s then - mag else mag)
  | S754_infinity _ => Raise (OverflowError "cannot convert float infinity to integer")
  | S754_nan => Raise (ValueError "cannot convert float NaN to integer")
  end.

(** The literal [255.0]. *)
Definition lit_255_0 : spec_float :=
  Eval vm_compute in binary_normalize prec emax 255 0 false.

End Float.

(** ** create_curve_data *)

(** [range(n)] *)
Definition range (n : nat) : list Z := seqZ 0 (Z.of_nat n).

(** [int((value / 255.0) * 65535)] *)
Definition to_16bit (value : Z) : result Z :=
  let* fvalue := Float.of_int value in
  let* ratio := Float.truediv fvalue Float.lit_255_0 in
  let* f65535 := Float.of_int 65535 in
  Float.to_int (Float.mul ratio f65535).

(** The body of [for i in range(256)], threading the list [curve]. *)
Fixpoint curve_loop (offset : Z) (rng : list Z) (curve : list Z) : result (list Z) :=
  match rng with
  | [] => Ok curve
  | i :: rng' =>
      let value := Z.min 255 (Z.max 0 (i + offset)) in
      let* value_16bit := to_16bit value in
      curve_loop offset rng' (curve ++ [value_16bit])
  end.

Definition create_curve_data (offset : Z) : result (list Z) :=
  curve_loop offset (range 256) [].

(** ** Helpers of the script *)

Definition write_tag (tag_signature data : bytes) : result bytes :=
  let* zero := Struct.pack_I 0 in
  Ok (tag_signature ++ zero ++ data).

Definition pad_to_4bytes (data : bytes) : bytes :=
  let remainder := Bytes.len data mod 4 in
  if remainder =? 0 then data
  else data ++ Bytes.zeros (4 - remainder).

(** [b''.join(struct.pack('>H', v) for v in curve_values)] *)
Fixpoint pack_values (curve_values : list Z) : result bytes :=
  match curve_values with
  | [] => Ok []
  | v :: vs =>
      let* b := Struct.pack_H v in
      let* bs := pack_values vs in
      Ok (b ++ bs)
  end.

Definition create_curve_tag (curve_values : list Z) : result bytes :=
  let curve_type := Bytes.lit "curv" in
  let reserved := [x00; x00; x00; x00] in
  let* count := Struct.pack_I (Z.of_nat (length curve_values)) in
  let* values := pack_values curve_values in
  Ok (curve_type ++ reserved ++ count ++ values).

(** ** str.encode('ascii') *)

Definition is_ascii (c : Z) : bool := (0 <=? c) && (c <? 128).

(** Length of the leading run of characters the codec cannot encode; the
    error reports the whole run. *)
Fixpoint bad_run (rest : str) : nat :=
  match rest with
  | c :: rest' => if is_ascii c then 0%nat else S (bad_run rest')
  | [] => 0%nat
  end.

Fixpoint encode_from (text : str) (pos : nat) (rest : str) : result bytes :=
  match rest with
  | [] => Ok []
  | c :: rest' =>
      if is_ascii c then
        let* bs := encode_from text (S pos) rest' in
        Ok (Bytes.of_Z c :: bs)
      else
        Raise (UnicodeEncodeError "ascii" text pos (pos + bad_run rest)%nat
                                  "ordinal not in range(128)")
  end.

Definition encode_ascii (text : str) : result bytes := encode_from text 0 text.

Definition create_text_desc_tag (text : str) : result bytes :=
  let tag_type := Bytes.lit "desc" in
  let reserved := [x00; x00; x00; x00] in
  let* ascii_len := Struct.pack_I (Z.of_nat (length text) + 1) in
  let* encoded := encode_ascii text in
  let ascii_text := encoded ++ [x00] in
  let* unicode_code := Struct.pack_I 0 in
  let* unicode_len := Struct.pack_I 0 in
  let* script_code := Struct.pack_H 0 in
  let script_len := [x00] in
  Ok (tag_type ++ reserved ++ ascii_len ++ ascii_text ++
      unicode_code ++ unicode_len ++ script_code ++ script_len).

Definition create_xyz_tag (x y z : Z) : result bytes :=
  let tag_type := Bytes.lit "XYZ " in
  let reserved := [x00; x00; x00; x00] in
  let* xyz := Struct.pack_III x y z in
  Ok (tag_type ++ reserved ++ xyz).

(** ** The profile header (128 bytes) *)

Definition creation_date : bytes :=
  [x07; xe9; x0b; x0a; x00; x00; x00; x00; x00; x00; x00; x00].

Definition header : result bytes :=
  let profile_size_placeholder := [x00; x00; x00; x00] in
  let preferred_cmm := [x00; x00; x00; x00] in
  let profile_version := [x02; x10; x00; x00] in
  let profile_class := Bytes.lit "mntr" in
  let color_space := Bytes.lit "RGB " in
  let pcs := Bytes.lit "XYZ " in
  let acsp := Bytes.lit "acsp" in
  let platform := Bytes.lit "MSFT" in
  let flags := [x00; x00; x00; x00] in
  let device_manufacturer := [x00; x00; x00; x00] in
  let device_model := [x00; x00; x00; x00] in
  let device_attributes := [x00; x00; x00; x00; x00; x00; x00; x00] in
  let rendering_intent := [x00; x00; x00; x00] in
  let* pcs_illuminant := Struct.pack_III 0x0000F6D6 0x00010000 0x0000D32D in
  let creator := Bytes.lit "CLDE" in
  let reserved := Bytes.zeros 44 in
  Ok (profile_size_placeholder ++ preferred_cmm ++ profile_version ++
      profile_class ++ color_space ++ pcs ++ creation_date ++ acsp ++
      platform ++ flags ++ device_manufacturer ++ device_model ++
      device_attributes ++ rendering_intent ++ pcs_illuminant ++
      creator ++ reserved).

(** ** Tag assembly *)

(** The variables the assembly loop updates. *)
Record assembly : Type := Assembly {
  tag_table_entries : list bytes;
  tag_data_section : bytes;
  current_offset : Z
}.

(** [for sig, tag_data in tag_signatures: ...] *)
Fixpoint tag_loop (tag_signatures : list (bytes * bytes)) (st : assembly)
  : result assembly :=
  match tag_signatures with
  | [] => Ok st
  | (sig, tag_data) :: rest =>
      let tag_data := pad_to_4bytes tag_data in
      let* packed_offset := Struct.pack_I (current_offset st) in
      let* packed_length := Struct.pack_I (Bytes.len tag_data) in
      tag_loop rest
        {| tag_table_entries :=
             tag_table_entries st ++ [sig ++ packed_offset ++ packed_length];
           tag_data_section := tag_data_section st ++ tag_data;
           current_offset := current_offset st + Bytes.len tag_data |}
  end.

(** ** create_icc_profile

    The script fixes the three curve offsets and the two texts as literals
    inside [create_icc_profile]; [create_icc_profile_with] is that body with
    the five literals as arguments, and [create_icc_profile] instantiates
    it with the script's values.  Statements are evaluated in the script's
    order, so the first exception raised is the script's; the list
    [tags_data], which the script never reads, is left out. *)

Definition create_icc_profile_with
    (red_offset green_offset blue_offset : Z) (desc_text cprt_text : str)
  : result bytes :=
  let* header := header in
  let tag_count := 9 in
  let* red_curve := create_curve_data red_offset in
  let* green_curve := create_curve_data green_offset in
  let* blue_curve := create_curve_data blue_offset in
  let* red_curve_tag := create_curve_tag red_curve in
  let* green_curve_tag := create_curve_tag green_curve in
  let* blue_curve_tag := create_curve_tag blue_curve in
  let* desc_tag := create_text_desc_tag desc_text in
  let* copyright_tag := create_text_desc_tag cprt_text in
  let* wtpt_tag := create_xyz_tag 0x0000F6D6 0x00010000 0x0000D32D in
  let* rXYZ_tag := create_xyz_tag 0x0000F351 0x00010000 0x0000D32D in
  let* gXYZ_tag := create_xyz_tag 0x00006FA2 0x00010000 0x0000D32D in
  let* bXYZ_tag := create_xyz_tag 0x00006FA2 0x00010000 0x0000D32D in
  let current_offset := 128 + 4 + tag_count * 12 in
  let tag_signatures :=
    [ (Bytes.lit "desc", desc_tag);
      (Bytes.lit "cprt", copyright_tag);
      (Bytes.lit "wtpt", wtpt_tag);
      (Bytes.lit "rXYZ", rXYZ_tag);
      (Bytes.lit "gXYZ", gXYZ_tag);
      (Bytes.lit "bXYZ", bXYZ_tag);
      (Bytes.lit "rTRC", red_curve_tag);
      (Bytes.lit "gTRC", green_curve_tag);
      (Bytes.lit "bTRC", blue_curve_tag) ] in
  let* st := tag_loop tag_signatures
               {| tag_table_entries := [];
                  tag_data_section := [];
                  current_offset := current_offset |} in
  let* packed_count := Struct.pack_I tag_count in
  let tag_table := packed_count ++ Bytes.join (tag_table_entries st) in
  let profile := header ++ tag_table ++ tag_data_section st in
  let profile_size := Bytes.len profile in
  let* packed_size := Struct.pack_I profile_size in
  Ok (packed_size ++ drop 4 profile).

(** A [str] literal of characters below 256. *)
Definition text (s : string) : str := map Bytes.to_Z (list_byte_of_string s).

Definition create_icc_profile : result bytes :=
  create_icc_profile_with 22 0 0
    (text "Red+22 Test Profile") (text "Public Domain").

(** ** main: the file system and the console

    [open(path, 'wb')] creates or truncates the file, [f.write] appends to
    it, [print] appends a line to the console.  The wall clock is part of
    the world; the script imports [datetime] and never reads it.  Failures
    of the operating system while writing are outside the model. *)

Record World : Type := MkWorld {
  files : gmap string bytes;
  stdout : list string;
  clock : Z
}.

Definition open_wb (path : string) (w : World) : World :=
  {| files := <[path := []]> (files w); stdout := stdout w; clock := clock w |}.

Definition file_write (path : string) (data : bytes) (w : World) : World :=
  {| files := alter (fun old => old ++ data) path (files w);
     stdout := stdout w; clock := clock w |}.

Definition print (line : string) (w : World) : World :=
  {| files := files w; stdout := stdout w ++ [line]; clock := clock w |}.

(** [f"{n}"] for an int. *)
Definition format_int (n : Z) : string := NilZero.string_of_int (Z.to_int n).

Definition output_file : string := "red_plus_22.icc".

(** [main] continued after [profile_data] has been built. *)
Definition save_and_report (profile_data : bytes) (w : World) : World :=
  let w := open_wb output_file w in
  let w := file_write output_file profile_data w in
  let w := print (String.append "Generated ICC profile: " output_file) w in
  let w := print (String.append "  Profile size: "
                    (String.append (format_int (Bytes.len profile_data)) " bytes")) w in
  let w := print "  Effect: Increases red channel by 22 (out of 255)" w in
  let w := print (String (ascii_of_nat 10) "Usage:") w in
  print (String.append
           "  scanner.exe -process-file <image.tiff> -profile " output_file) w.

(** An exception raised while the profile is built propagates out of
    [main] before the output file is opened. *)
Definition main_with
    (red_offset green_offset blue_offset : Z) (desc_text cprt_text : str)
    (w : World) : World * result unit :=
  match create_icc_profile_with red_offset green_offset blue_offset
          desc_text cprt_text with
  | Raise e => (w, Raise e)
  | Ok profile_data => (save_and_report profile_data w, Ok tt)
  end.

Definition main (w : World) : World * result unit :=
  match create_icc_profile with
  | Raise e => (w, Raise e)
  | Ok profile_data => (save_and_report profile_data w, Ok tt)
  end.

(** ** Reading a profile back

    What a consumer of the file sees: the size field, the tag count, the
    tag table entries and the payload an entry points to. *)

Record tag_entry : Type := TagEntry {
  e_sig : bytes;
  e_offset : Z;
  e_length : Z
}.

Definition size_field (profile : bytes) : Z :=
  Bytes.to_int (Bytes.slice 0 4 profile).

Definition tag_count_field (profile : bytes) : Z :=
  Bytes.to_int (Bytes.slice 128 4 profile).

Definition read_entry (profile : bytes) (k : Z) : tag_entry :=
  {| e_sig := Bytes.slice (132 + 12 * k) 4 profile;
     e_offset := Bytes.to_int (Bytes.slice (132 + 12 * k + 4) 4 profile);
     e_length := Bytes.to_int (Bytes.slice (132 + 12 * k + 8) 4 profile) |}.

Definition read_tag_table (profile : bytes) : list tag_entry :=
  map (read_entry profile) (seqZ 0 (tag_count_field profile)).

(** First byte after the tag table. *)
Definition data_section_start (profile : bytes) : Z :=
  128 + 4 + 12 * tag_count_field profile.

Definition tag_payload (profile : bytes) (e : tag_entry) : bytes :=
  Bytes.slice (e_offset e) (e_length e) profile.

(** ** The tone curve as the specification words it *)

Definition clamp (x lo hi : Z) : Z := Z.max lo (Z.min x hi).

(** Rounding to the nearest integer, ties to even. *)
Definition round_nearest (q : Q) : Z :=
  let f := Qfloor q in
  match (q - inject_Z f ?= 1 # 2)%Q with
  | Lt => f
  | Gt => f + 1
  | Eq => if Z.even f then f else f + 1
  end.

(** [round(clamp(i + o, 0, 255) / 255 * 65535)] over the rationals. *)
Definition spec_sample (o i : Z) : Z :=
  round_nearest (inject_Z (clamp (i + o) 0 255) / 255 * 65535)%Q.

(** ** Vocabulary of the proofs *)

(** The level the loop body computes for index [i]. *)
Definition level (offset i : Z) : Z := Z.min 255 (Z.max 0 (i + offset)).

(** Does [to_16bit] return exactly [257 * value]? *)
Definition to_16bit_is_exact (value : Z) : bool :=
  match to_16bit value with
  | Ok r => r =? 257 * value
  | Raise _ => false
  end.

(** The header the script builds; its packing never fails. *)
Definition header_bytes : bytes :=
  Eval vm_compute in match header with Ok h => h | Raise _ => [] end.

(** The nine payloads, in the order of [tag_signatures]. *)
Record payloads : Type := Payloads {
  p_desc : bytes; p_cprt : bytes; p_wtpt : bytes;
  p_rXYZ : bytes; p_gXYZ : bytes; p_bXYZ : bytes;
  p_rTRC : bytes; p_gTRC : bytes; p_bTRC : bytes
}.

Definition tag_signatures (p : payloads) : list (bytes * bytes) :=
  [ (Bytes.lit "desc", p_desc p);
    (Bytes.lit "cprt", p_cprt p);
    (Bytes.lit "wtpt", p_wtpt p);
    (Bytes.lit "rXYZ", p_rXYZ p);
    (Bytes.lit "gXYZ", p_gXYZ p);
    (Bytes.lit "bXYZ", p_bXYZ p);
    (Bytes.lit "rTRC", p_rTRC p);
    (Bytes.lit "gTRC", p_gTRC p);
    (Bytes.lit "bTRC", p_bTRC p) ].

(** [p] holds the payloads the script computes from its five inputs. *)
Definition built (red_offset green_offset blue_offset : Z)
    (desc_text cprt_text : str) (p : payloads) : Prop :=
  create_text_desc_tag desc_text = Ok (p_desc p) /\
  create_text_desc_tag cprt_text = Ok (p_cprt p) /\
  create_xyz_tag 0x0000F6D6 0x00010000 0x0000D32D = Ok (p_wtpt p) /\
  create_xyz_tag 0x0000F351 0x00010000 0x0000D32D = Ok (p_rXYZ p) /\
  create_xyz_tag 0x00006FA2 0x00010000 0x0000D32D = Ok (p_gXYZ p) /\
  create_xyz_tag 0x00006FA2 0x00010000 0x0000D32D = Ok (p_bXYZ p) /\
  (exists curve, create_curve_data red_offset = Ok curve /\
                 create_curve_tag curve = Ok (p_rTRC p)) /\
  (exists curve, create_curve_data green_offset = Ok curve /\
                 create_curve_tag curve = Ok (p_gTRC p)) /\
  (exists curve, create_curve_data blue_offset = Ok curve /\
                 create_curve_tag curve = Ok (p_bTRC p)).

(** What the loop appends to the data section for one tag, and for all. *)
Definition padded (t : bytes * bytes) : bytes := pad_to_4bytes (snd t).

Definition padded_data (tags : list (bytes * bytes)) : bytes :=
  concat (map padded tags).

(** The entries the loop records, as values: each tag starts where the
    previous padded payload ended. *)
Fixpoint layout (off : Z) (tags : list (bytes * bytes)) : list tag_entry :=
  match tags with
  | [] => []
  | t :: rest =>
      {| e_sig := fst t; e_offset := off; e_length := Bytes.len (padded t) |}
      :: layout (off + Bytes.len (padded t)) rest
  end.

(** [bs] is the 12-byte table entry of [e]. *)
Definition entry_bytes (e : tag_entry) (bs : bytes) : Prop :=
  exists po pl,
    Struct.pack_I (e_offset e) = Ok po /\
    Struct.pack_I (e_length e) = Ok pl /\
    bs = e_sig e ++ po ++ pl.

(** The header after the size placeholder. *)
Definition header_tail : bytes := drop 4 header_bytes.

(** The payload of the green and of the blue primary:
    [b'XYZ ' + reserved + struct.pack('>III', 0x6FA2, 0x10000, 0xD32D)]. *)
Definition xyz_6FA2 : bytes :=
  Bytes.lit "XYZ " ++ [x00; x00; x00; x00] ++
  [x00; x00; x6f; xa2] ++ [x00; x01; x00; x00] ++ [x00; x00; xd3; x2d].

(** The bytes the script writes: [create_icc_profile()] evaluated. *)
Definition red_plus_22 : bytes :=
  Eval vm_compute in match create_icc_profile with Ok p => p | Raise _ => [] end.

(** [all(ord(ch) < 128 for ch in t)] *)
Definition all_ascii (t : str) : bool := forallb is_ascii t.

(** [start, stop) is the first run of characters of [t] that are not ASCII:
    everything before [start] is ASCII, everything from [start] up to
    [stop] is not, and the run ends at the end of [t] or at an ASCII
    character.  At most one pair satisfies this. *)
Definition first_bad_run (t : str) (start stop : nat) : Prop :=
  (start < stop <= length t)%nat /\
  (forall (i : nat) (ch : Z), (i < start)%nat -> t !! i = Some ch -> is_ascii ch = true) /\
  (forall (i : nat) (ch : Z),
     (start <= i < stop)%nat -> t !! i = Some ch -> is_ascii ch = false) /\
  (forall ch : Z, t !! stop = Some ch -> is_ascii ch = true).

(** The two text inputs. *)
Inductive field : Type := Description | Copyright.

(** An exception identifies the offending field when the field can be read
    off the exception raised: [field_of] names the description whenever the
    description is the text that cannot be encoded, and the copyright
    whenever it is the copyright. *)
Definition identifies_field (field_of : exn -> field) : Prop :=
  forall (r g b : Z) (d c : str) (e : exn),
    create_icc_profile_with r g b d c = Raise e ->
    (all_ascii d = false -> field_of e = Description) /\
    (all_ascii d = true -> all_ascii c = false -> field_of e = Copyright).

(** Entries of positive length that tile the byte range from [start] to
    [stop] without gaps. *)
Inductive contiguous : Z -> list tag_entry -> Z -> Prop :=
| contiguous_nil (stop : Z) : contiguous stop [] stop
| contiguous_cons (e : tag_entry) (es : list tag_entry) (stop : Z) :
    0 < e_length e ->
    contiguous (e_offset e + e_length e) es stop ->
    contiguous (e_offset e) (e :: es) stop.

(** ** Decoding tag payloads

    The reading side of the three tag encoders: what a consumer gets back
    from the bytes of a tag. *)

(** The type signature a payload starts with. *)
Definition tag_type (tag : bytes) : bytes := Bytes.slice 0 4 tag.

(** The four reserved bytes after the type signature. *)
Definition tag_reserved (tag : bytes) : bytes := Bytes.slice 4 4 tag.

(** An XYZ tag: three big-endian 32-bit numbers after the 8-byte prefix. *)
Definition read_xyz (tag : bytes) : Z * Z * Z :=
  (Bytes.to_int (Bytes.slice 8 4 tag),
   Bytes.to_int (Bytes.slice 12 4 tag),
   Bytes.to_int (Bytes.slice 16 4 tag)).

(** A curve tag: a 32-bit count, then that many big-endian 16-bit samples. *)
Definition read_curve (tag : bytes) : list Z :=
  map (fun k => Bytes.to_int (Bytes.slice (12 + 2 * k) 2 tag))
      (seqZ 0 (Bytes.to_int (Bytes.slice 8 4 tag))).

(** A text description tag: a 32-bit count that includes the NUL, then the
    characters. *)
Definition read_text (tag : bytes) : str :=
  map Bytes.to_Z (Bytes.slice 12 (Bytes.to_int (Bytes.slice 8 4 tag) - 1) tag).

(** [n] rounded up to a multiple of 4. *)
Definition pad4 (n : Z) : Z := (n + 3) / 4 * 4.

(** The type signature of the tag at position [k] of the tag table. *)
Definition type_at (k : nat) : bytes :=
  if (k <? 2)%nat then Bytes.lit "desc"
  else if (k <? 6)%nat then Bytes.lit "XYZ "
  else Bytes.lit "curv".


(** * Verification *)

(** ** The result monad *)

Lemma bind_ok {A B : Type} (m : result A) (k : A -> result B) (b : B) :
  bind m k = Ok b -> exists a, m = Ok a /\ k a = Ok b.
Proof. destruct m as [a|e]; simpl; [eauto | discriminate]. Qed.

(** Decompose a successful chain of binds, one step at a time. *)
Lemma Ok_inj {A : Type} (a b : A) : Ok a = Ok b -> a = b.
Proof. now intros [= ->]. Qed.

Tactic Notation "bind_inv" hyp(H) :=
  let a := fresh "v" in
  let Ha := fresh "E" in
  apply bind_ok in H; destruct H as (a & Ha & H).

Tactic Notation "bind_inv" hyp(H) "as" ident(a) ident(Ha) :=
  apply bind_ok in H; destruct H as (a & Ha & H).

(** ** Bytes and big-endian fields *)

Lemma to_Z_of_Z (z : Z) : Bytes.to_Z (Bytes.of_Z z) = z mod 256.
Proof.
  unfold Bytes.to_Z, Bytes.of_Z.
  assert (Hr : 0 <= z mod 256 < 256) by (apply Z.mod_pos_bound; lia).
  destruct (Byte.of_N (Z.to_N (z mod 256))) as [b|] eqn:E.
  - simpl. apply Byte.to_of_N in E. rewrite E. lia.
  - apply Byte.of_N_None_iff in E. lia.
Qed.

Lemma len_app (a b : bytes) : Bytes.len (a ++ b) = Bytes.len a + Bytes.len b.
Proof. unfold Bytes.len. rewrite length_app. lia. Qed.

Lemma len_nonneg (a : bytes) : 0 <= Bytes.len a.
Proof. unfold Bytes.len. lia. Qed.

Lemma len_zeros (n : Z) : 0 <= n -> Bytes.len (Bytes.zeros n) = n.
Proof. intros Hn. unfold Bytes.len, Bytes.zeros. rewrite length_replicate. lia. Qed.

(** ** pad_to_4bytes *)

Lemma pad_aligned (data : bytes) :
  Bytes.len data mod 4 = 0 -> pad_to_4bytes data = data.
Proof. intros H. unfold pad_to_4bytes. rewrite H. reflexivity. Qed.

Lemma pad_len_mod (data : bytes) : Bytes.len (pad_to_4bytes data) mod 4 = 0.
Proof.
  unfold pad_to_4bytes.
  destruct (Z.eqb_spec (Bytes.len data mod 4) 0) as [E|E]; [exact E|].
  pose proof (Z.mod_pos_bound (Bytes.len data) 4 ltac:(lia)) as Hr.
  rewrite len_app, len_zeros by lia.
  pose proof (Z.div_mod (Bytes.len data) 4 ltac:(lia)) as Hd.
  replace (Bytes.len data + (4 - Bytes.len data mod 4))
    with ((Bytes.len data / 4 + 1) * 4) by lia.
  apply Z.mod_mul. lia.
Qed.

Lemma pad_len_bounds (data : bytes) :
  Bytes.len data <= Bytes.len (pad_to_4bytes data) <= Bytes.len data + 3.
Proof.
  unfold pad_to_4bytes.
  destruct (Z.eqb_spec (Bytes.len data mod 4) 0) as [E|E]; [lia|].
  pose proof (Z.mod_pos_bound (Bytes.len data) 4 ltac:(lia)) as Hr.
  rewrite len_app, len_zeros by lia. lia.
Qed.

(** C7. Padding to a 4-byte boundary is idempotent, and data whose length
    is already a multiple of 4 comes back unchanged. *)
Theorem pad_to_4bytes_idempotent (x : bytes) :
  pad_to_4bytes (pad_to_4bytes x) = pad_to_4bytes x /\
  (Bytes.len x mod 4 = 0 -> pad_to_4bytes x = x).
Proof.
  split.
  - apply pad_aligned, pad_len_mod.
  - apply pad_aligned.
Qed.

Lemma pad_to_4bytes_idempotent_witness :
  Bytes.len (Bytes.lit "acsp") mod 4 = 0 /\
  pad_to_4bytes (Bytes.lit "acsp") = Bytes.lit "acsp" /\
  pad_to_4bytes (pad_to_4bytes (Bytes.lit "desc!")) = pad_to_4bytes (Bytes.lit "desc!").
Proof.
  split; [reflexivity|]. split.
  - apply (proj2 (pad_to_4bytes_idempotent (Bytes.lit "acsp"))). reflexivity.
  - apply (proj1 (pad_to_4bytes_idempotent (Bytes.lit "desc!"))).
Defined.

(** ** The tone curve *)

(** On the 256 clamped levels the float expression is exact: dividing by
    255.0 and multiplying by 65535 lands on [257 * value] and truncation
    loses nothing.  Checked by evaluating the binary64 operations. *)
Lemma to_16bit_table : forallb to_16bit_is_exact (range 256) = true.
Proof. vm_compute. reflexivity. Qed.

Lemma to_16bit_exact (value : Z) :
  0 <= value <= 255 -> to_16bit value = Ok (257 * value).
Proof.
  intros Hv.
  pose proof to_16bit_table as T.
  rewrite forallb_forall in T.
  specialize (T value).
  unfold to_16bit_is_exact in T.
  destruct (to_16bit value) as [r|e].
  - f_equal. apply Z.eqb_eq, T.
    apply list_elem_of_In, elem_of_seqZ. lia.
  - discriminate T.
    apply list_elem_of_In, elem_of_seqZ. lia.
Qed.

Lemma level_range (offset i : Z) : 0 <= level offset i <= 255.
Proof. unfold level. lia. Qed.

Lemma level_mono (offset i j : Z) : i <= j -> level offset i <= level offset j.
Proof. unfold level. lia. Qed.

Lemma curve_loop_ok (offset : Z) (rng curve : list Z) :
  curve_loop offset rng curve =
  Ok (curve ++ map (fun i => 257 * level offset i) rng).
Proof.
  revert curve. induction rng as [|i rng IH]; intros curve; simpl.
  - now rewrite app_nil_r.
  - fold (level offset i).
    rewrite (to_16bit_exact (level offset i)) by apply level_range.
    simpl. rewrite IH, <- app_assoc. reflexivity.
Qed.

Lemma create_curve_data_ok (offset : Z) :
  create_curve_data offset = Ok (map (fun i => 257 * level offset i) (range 256)).
Proof. unfold create_curve_data. now rewrite curve_loop_ok. Qed.

Lemma curve_lookup (offset : Z) (i : nat) (v : Z) :
  map (fun i => 257 * level offset i) (range 256) !! i = Some v <->
  (i < 256)%nat /\ v = 257 * level offset (Z.of_nat i).
Proof.
  change (map ?f ?l) with (f <$> l).
  rewrite list_lookup_fmap. unfold range.
  destruct (decide (i < 256)%nat) as [Hi|Hi].
  - rewrite lookup_seqZ_lt by lia. simpl. split.
    + intros [= <-]. auto.
    + intros [_ ->]. reflexivity.
  - rewrite lookup_seqZ_ge by lia. simpl. split; [discriminate | tauto].
Qed.

(** The specification's formula, evaluated over the rationals. *)
Lemma round_nearest_Z (q : Q) (n : Z) : (q == inject_Z n)%Q -> round_nearest q = n.
Proof.
  intros Hq. unfold round_nearest.
  rewrite (Qfloor_comp _ _ Hq), Qfloor_Z.
  assert (Hc : Qcompare (q - inject_Z n) (1 # 2) = Lt).
  { apply (proj1 (Qlt_alt _ _)). rewrite Hq. unfold Qminus, Qlt. simpl. lia. }
  rewrite Hc. reflexivity.
Qed.

Lemma spec_sample_eq (o i : Z) : spec_sample o i = 257 * level o i.
Proof.
  unfold spec_sample. apply round_nearest_Z.
  replace (clamp (i + o) 0 255) with (level o i) by (unfold clamp, level; lia).
  unfold Qeq, Qdiv, Qmult, Qinv, inject_Z. simpl. lia.
Qed.

Lemma spec_ramp_eq (v : Z) :
  round_nearest (inject_Z v / 255 * 65535)%Q = 257 * v.
Proof.
  apply round_nearest_Z.
  unfold Qeq, Qdiv, Qmult, Qinv, inject_Z. simpl. lia.
Qed.

(** C1. For an offset in [-255, 255] and an index in [0, 255] the sample of
    the curve equals round(clamp(i + o, 0, 255) / 255 * 65535); with offset 0
    the curve is the identity ramp, from 0 at index 0 to 65535 at index 255. *)
Theorem tone_curve_samples :
  (forall o i : Z, -255 <= o <= 255 -> 0 <= i <= 255 ->
     exists curve, create_curve_data o = Ok curve /\
                   curve !! Z.to_nat i = Some (spec_sample o i)) /\
  (exists ramp, create_curve_data 0 = Ok ramp /\
     (forall i : Z, 0 <= i <= 255 ->
        ramp !! Z.to_nat i = Some (round_nearest (inject_Z i / 255 * 65535)%Q)) /\
     ramp !! 0%nat = Some 0 /\ ramp !! 255%nat = Some 65535).
Proof.
  split.
  - intros o i _ Hi. eexists. split; [apply create_curve_data_ok|].
    apply curve_lookup. split; [lia|].
    rewrite spec_sample_eq, Z2Nat.id by lia. reflexivity.
  - eexists. split; [apply create_curve_data_ok|]. split; [|split].
    + intros i Hi. apply curve_lookup. split; [lia|].
      rewrite spec_ramp_eq, Z2Nat.id by lia. unfold level. lia.
    + apply curve_lookup. split; [lia | reflexivity].
    + apply curve_lookup. split; [lia | reflexivity].
Qed.

Lemma tone_curve_samples_witness :
  -255 <= 22 <= 255 /\ 0 <= 233 <= 255 /\
  exists curve, create_curve_data 22 = Ok curve /\
                curve !! Z.to_nat 233 = Some (spec_sample 22 233).
Proof.
  split; [lia|]. split; [lia|].
  apply (proj1 tone_curve_samples 22 233); lia.
Defined.

(** C8. For every offset the curve has exactly 256 samples and they never
    decrease along the index. *)
Theorem tone_curve_length_monotone (o : Z) :
  exists curve, create_curve_data o = Ok curve /\
    length curve = 256%nat /\
    forall (i j : nat) (a b : Z),
      (i <= j)%nat -> curve !! i = Some a -> curve !! j = Some b -> a <= b.
Proof.
  eexists. split; [apply create_curve_data_ok|]. split.
  - rewrite length_map. unfold range. now rewrite length_seqZ.
  - intros i j a b Hij Ha Hb.
    apply curve_lookup in Ha as [_ ->]. apply curve_lookup in Hb as [_ ->].
    pose proof (level_mono o (Z.of_nat i) (Z.of_nat j) ltac:(lia)). lia.
Qed.

Lemma tone_curve_length_monotone_witness :
  exists curve, create_curve_data 22 = Ok curve /\
    length curve = 256%nat /\
    curve !! 0%nat = Some 5654 /\ curve !! 255%nat = Some 65535 /\
    5654 <= 65535.
Proof.
  destruct (tone_curve_length_monotone 22) as (curve & E & L & M).
  exists curve. split; [exact E|]. split; [exact L|].
  assert (E0 : curve !! 0%nat = Some 5654).
  { rewrite create_curve_data_ok in E. injection E as <-. reflexivity. }
  assert (E255 : curve !! 255%nat = Some 65535).
  { rewrite create_curve_data_ok in E. injection E as <-. reflexivity. }
  split; [exact E0|]. split; [exact E255|].
  apply (M 0%nat 255%nat 5654 65535); [lia | exact E0 | exact E255].
Defined.

(** ** struct.pack *)

Lemma land_255 (x : Z) : Z.land x 255 = x mod 256.
Proof. change 255 with (Z.ones 8). now rewrite Z.land_ones by lia. Qed.

Lemma pack_I_inv (v : Z) (bs : bytes) :
  Struct.pack_I v = Ok bs ->
  0 <= v <= 4294967295 /\ length bs = 4%nat /\ Bytes.to_int bs = v.
Proof.
  unfold Struct.pack_I.
  destruct (Z.leb_spec 0 v), (Z.leb_spec v 4294967295); simpl;
    try (destruct (Struct.not_unsigned_long v); discriminate).
  intros [= <-]. split; [lia|]. split; [reflexivity|].
  unfold Bytes.to_int. simpl.
  rewrite !to_Z_of_Z, !land_255, !Z.shiftr_div_pow2 by lia.
  rewrite !Z.mod_mod by lia.
  change (2 ^ 24) with 16777216. change (2 ^ 16) with 65536. change (2 ^ 8) with 256.
  Z.div_mod_to_equations. lia.
Qed.

Lemma pack_I_ok (v : Z) :
  0 <= v <= 4294967295 -> exists bs, Struct.pack_I v = Ok bs.
Proof.
  intros Hv. unfold Struct.pack_I.
  destruct (Z.leb_spec 0 v), (Z.leb_spec v 4294967295); simpl; try lia.
  eauto.
Qed.

Lemma pack_H_ok (v : Z) :
  0 <= v <= 65535 ->
  exists bs, Struct.pack_H v = Ok bs /\ length bs = 2%nat.
Proof.
  intros Hv. unfold Struct.pack_H.
  destruct (Z.leb_spec 0 v), (Z.leb_spec v 65535); simpl; try lia.
  eauto.
Qed.

Lemma pack_values_ok (vs : list Z) :
  Forall (fun v => 0 <= v <= 65535) vs ->
  exists bs, pack_values vs = Ok bs /\ length bs = (2 * length vs)%nat.
Proof.
  induction 1 as [|v vs Hv _ (bs & E & L)]; simpl.
  - eauto.
  - destruct (pack_H_ok v Hv) as (b & Eb & Lb).
    rewrite Eb, E. simpl. eexists. split; [reflexivity|].
    rewrite length_app. lia.
Qed.

Lemma curve_samples_range (o : Z) :
  Forall (fun v => 0 <= v <= 65535)
         (map (fun i => 257 * level o i) (range 256)).
Proof.
  apply Forall_forall. intros v Hv.
  apply list_elem_of_In, in_map_iff in Hv as (i & <- & _).
  pose proof (level_range o i). lia.
Qed.

Lemma create_curve_tag_ok (o : Z) :
  exists tag,
    create_curve_tag (map (fun i => 257 * level o i) (range 256)) = Ok tag.
Proof.
  unfold create_curve_tag.
  destruct (pack_values_ok _ (curve_samples_range o)) as (bs & E & _).
  rewrite E, length_map. unfold range. rewrite length_seqZ. simpl. eauto.
Qed.

(** C9. For every integer offset, also outside [-255, 255], each sample of
    the curve lies in [0, 65535]; packing a sample as an unsigned 16-bit
    value succeeds, and so does building the whole curve tag. *)
Theorem samples_fit_uint16 (o : Z) :
  exists curve, create_curve_data o = Ok curve /\
    Forall (fun v => 0 <= v <= 65535) curve /\
    Forall (fun v => exists b, Struct.pack_H v = Ok b) curve /\
    exists tag, create_curve_tag curve = Ok tag.
Proof.
  eexists. split; [apply create_curve_data_ok|].
  pose proof (curve_samples_range o) as R.
  split; [exact R|]. split.
  - eapply Forall_impl; [exact R|]. intros v Hv.
    destruct (pack_H_ok v Hv) as (b & Eb & _). eauto.
  - apply create_curve_tag_ok.
Qed.

(** ** Sizes of the tag payloads *)

Lemma pack_H_inv (v : Z) (bs : bytes) :
  Struct.pack_H v = Ok bs -> 0 <= v <= 65535 /\ length bs = 2%nat.
Proof.
  unfold Struct.pack_H.
  destruct (Z.leb_spec 0 v), (Z.leb_spec v 65535); simpl;
    try (destruct (Struct.not_unsigned_long v); discriminate).
  intros [= <-]. split; [lia | reflexivity].
Qed.

Lemma pack_III_inv (x y z : Z) (bs : bytes) :
  Struct.pack_III x y z = Ok bs -> length bs = 12%nat.
Proof.
  unfold Struct.pack_III. intros H.
  bind_inv H. bind_inv H. bind_inv H. injection H as <-.
  apply pack_I_inv in E as (_ & L1 & _).
  apply pack_I_inv in E0 as (_ & L2 & _).
  apply pack_I_inv in E1 as (_ & L3 & _).
  rewrite !length_app. lia.
Qed.

Lemma pack_values_inv (vs : list Z) (bs : bytes) :
  pack_values vs = Ok bs -> length bs = (2 * length vs)%nat.
Proof.
  revert bs. induction vs as [|v vs IH]; simpl; intros bs H.
  - now injection H as <-.
  - bind_inv H. bind_inv H. injection H as <-.
    apply pack_H_inv in E as [_ L]. rewrite length_app, (IH _ E0). simpl. lia.
Qed.

Lemma create_curve_tag_len (vs : list Z) (tag : bytes) :
  create_curve_tag vs = Ok tag ->
  Bytes.len tag = 12 + 2 * Z.of_nat (length vs).
Proof.
  unfold create_curve_tag. intros H.
  bind_inv H. bind_inv H. injection H as <-.
  apply pack_I_inv in E as (_ & L & _). apply pack_values_inv in E0.
  unfold Bytes.len. simpl. rewrite ?length_app, L, E0. lia.
Qed.

Lemma create_xyz_tag_len (x y z : Z) (tag : bytes) :
  create_xyz_tag x y z = Ok tag -> Bytes.len tag = 20.
Proof.
  unfold create_xyz_tag. intros H. bind_inv H. injection H as <-.
  apply pack_III_inv in E.
  unfold Bytes.len. simpl. rewrite ?length_app, E. reflexivity.
Qed.

Lemma encode_from_len (text : str) (pos : nat) (rest : str) (bs : bytes) :
  encode_from text pos rest = Ok bs -> length bs = length rest.
Proof.
  revert pos bs. induction rest as [|c rest IH]; simpl; intros pos bs H.
  - now injection H as <-.
  - destruct (is_ascii c); [|discriminate].
    bind_inv H. injection H as <-. simpl. f_equal. eauto.
Qed.

Lemma create_text_desc_tag_len (t : str) (tag : bytes) :
  create_text_desc_tag t = Ok tag ->
  Bytes.len tag = Z.of_nat (length t) + 24.
Proof.
  unfold create_text_desc_tag, encode_ascii. intros H.
  bind_inv H. bind_inv H. bind_inv H. bind_inv H. bind_inv H. injection H as <-.
  apply pack_I_inv in E as (_ & L & _).
  apply encode_from_len in E0.
  apply pack_I_inv in E1 as (_ & L1 & _).
  apply pack_I_inv in E2 as (_ & L2 & _).
  apply pack_H_inv in E3 as (_ & L3).
  unfold Bytes.len. simpl. rewrite ?length_app, E0, L1, L2, L3. simpl. lia.
Qed.

Lemma padded_pos (t : bytes * bytes) : 0 < Bytes.len (snd t) -> 0 < Bytes.len (padded t).
Proof. unfold padded. pose proof (pad_len_bounds (snd t)). lia. Qed.

Lemma built_nonempty r g b d c (p : payloads) :
  built r g b d c p ->
  Forall (fun t => 0 < Bytes.len (padded t)) (tag_signatures p).
Proof.
  intros (Hd & Hc & Hw & HrX & HgX & HbX & (cr & _ & Hr) & (cg & _ & Hg) & (cb & _ & Hb)).
  apply create_text_desc_tag_len in Hd, Hc.
  apply create_xyz_tag_len in Hw, HrX, HgX, HbX.
  apply create_curve_tag_len in Hr, Hg, Hb.
  unfold tag_signatures.
  repeat (apply Forall_cons; split; [apply padded_pos; simpl; lia|]).
  apply Forall_nil_2.
Qed.

(** ** The assembly loop *)

Lemma padded_data_cons (t : bytes * bytes) (tags : list (bytes * bytes)) :
  padded_data (t :: tags) = padded t ++ padded_data tags.
Proof. reflexivity. Qed.

(** The loop records exactly [layout], appends exactly [padded_data] and
    advances the cursor by the bytes it appended. *)
Lemma tag_loop_inv (tags : list (bytes * bytes)) (st st' : assembly) :
  tag_loop tags st = Ok st' ->
  exists packed,
    tag_table_entries st' = tag_table_entries st ++ packed /\
    Forall2 entry_bytes (layout (current_offset st) tags) packed /\
    tag_data_section st' = tag_data_section st ++ padded_data tags /\
    current_offset st' = current_offset st + Bytes.len (padded_data tags).
Proof.
  revert st. induction tags as [|[sig tag_data] tags IH]; simpl; intros st H.
  - injection H as <-. exists []. rewrite !app_nil_r. unfold padded_data. simpl.
    split; [reflexivity|]. split; [constructor|]. split; [reflexivity | unfold Bytes.len; simpl; lia].
  - bind_inv H. bind_inv H. rename v into po, v0 into pl.
    apply IH in H as (packed & Ht & Hl & Hd & Ho). simpl in *.
    exists ((sig ++ po ++ pl) :: packed).
    rewrite Ht, Hd, Ho, padded_data_cons, len_app, <- !app_assoc. simpl.
    split; [reflexivity|]. split; [|split; [reflexivity | unfold padded; simpl; lia]].
    constructor; [|exact Hl].
    exists po, pl. simpl. auto.
Qed.

Lemma layout_contiguous (off : Z) (tags : list (bytes * bytes)) :
  Forall (fun t => 0 < Bytes.len (padded t)) tags ->
  contiguous off (layout off tags) (off + Bytes.len (padded_data tags)).
Proof.
  intros H. revert off. induction H as [|t tags Ht _ IH]; intros off; simpl.
  - replace (off + _) with off by (unfold Bytes.len; simpl; lia). constructor.
  - rewrite padded_data_cons, len_app, Z.add_assoc.
    apply (contiguous_cons (TagEntry (fst t) off (Bytes.len (padded t)))); simpl; auto.
Qed.

Lemma layout_sigs (off : Z) (tags : list (bytes * bytes)) :
  map e_sig (layout off tags) = map fst tags.
Proof. revert off. induction tags; intros off; simpl; f_equal; auto. Qed.

Lemma layout_length (off : Z) (tags : list (bytes * bytes)) :
  length (layout off tags) = length tags.
Proof. revert off. induction tags; intros off; simpl; f_equal; auto. Qed.

(** ** Reading the assembled bytes back *)

Lemma slice_app (pre mid post : bytes) (off n : Z) :
  off = Bytes.len pre -> n = Bytes.len mid ->
  Bytes.slice off n (pre ++ mid ++ post) = mid.
Proof.
  intros -> ->. unfold Bytes.slice, Bytes.len.
  now rewrite !Nat2Z.id, drop_app_length, take_app_length.
Qed.

Lemma read_entry_at (pre post bs : bytes) (e : tag_entry) (k : Z) :
  entry_bytes e bs -> length (e_sig e) = 4%nat ->
  Bytes.len pre = 132 + 12 * k ->
  read_entry (pre ++ bs ++ post) k = e /\ Bytes.len bs = 12.
Proof.
  intros (po & pl & Epo & Epl & ->) Hsig Hpre.
  apply pack_I_inv in Epo as (_ & Lpo & Vpo).
  apply pack_I_inv in Epl as (_ & Lpl & Vpl).
  split; [|unfold Bytes.len; rewrite !length_app; lia].
  destruct e as [sig off len]; simpl in *. unfold read_entry. f_equal.
  - rewrite <- !app_assoc. apply slice_app; unfold Bytes.len in *; lia.
  - rewrite <- Vpo. f_equal.
    replace (pre ++ (sig ++ po ++ pl) ++ post)
      with ((pre ++ sig) ++ po ++ (pl ++ post)) by now rewrite <- !app_assoc.
    apply slice_app; unfold Bytes.len in *; rewrite ?length_app; lia.
  - rewrite <- Vpl. f_equal.
    replace (pre ++ (sig ++ po ++ pl) ++ post)
      with ((pre ++ sig ++ po) ++ pl ++ post) by now rewrite <- !app_assoc.
    apply slice_app; unfold Bytes.len in *; rewrite ?length_app; lia.
Qed.

Lemma read_entries (es : list tag_entry) (packed : list bytes) :
  Forall2 entry_bytes es packed ->
  Forall (fun e => length (e_sig e) = 4%nat) es ->
  forall (pre post : bytes) (k : Z),
    0 <= k -> Bytes.len pre = 132 + 12 * k ->
    map (read_entry (pre ++ concat packed ++ post))
        (seqZ k (Z.of_nat (length es))) = es /\
    Bytes.len (concat packed) = 12 * Z.of_nat (length es).
Proof.
  induction 1 as [|e bs es packed Hbs _ IH]; intros Hsig pre post k Hk Hpre.
  - split; reflexivity.
  - apply Forall_cons in Hsig as [Hs Hsig].
    destruct (read_entry_at pre (concat packed ++ post) bs e k Hbs Hs Hpre)
      as [He Lbs].
    destruct (IH Hsig (pre ++ bs) post (k + 1) ltac:(lia)
                ltac:(rewrite len_app; lia)) as [IHm IHl].
    simpl concat. rewrite len_app, IHl, Lbs.
    split; [|simpl length; lia].
    rewrite seqZ_cons by (simpl length; lia). simpl map. f_equal.
    + rewrite <- app_assoc. exact He.
    + simpl length. rewrite Nat2Z.inj_succ, Z.pred_succ.
      replace (Z.succ k) with (k + 1) by lia.
      rewrite <- !app_assoc in IHm. rewrite <- !app_assoc. exact IHm.
Qed.

(** Every recorded span, read out of the bytes, is the padded payload of
    its tag. *)
Lemma layout_payloads (tags : list (bytes * bytes)) :
  forall pre : bytes,
    Forall2 (fun e t => tag_payload (pre ++ padded_data tags) e = padded t)
            (layout (Bytes.len pre) tags) tags.
Proof.
  induction tags as [|t tags IH]; intros pre; simpl; constructor.
  - unfold tag_payload. simpl. rewrite padded_data_cons.
    apply slice_app; reflexivity.
  - rewrite padded_data_cons, app_assoc, <- len_app. apply IH.
Qed.

(** ** The shape of an assembled profile *)

Lemma header_ok : header = Ok header_bytes.
Proof. vm_compute. reflexivity. Qed.

Lemma header_len : Bytes.len header_bytes = 128.
Proof. reflexivity. Qed.

Lemma header_split (rest : bytes) :
  drop 4 (header_bytes ++ rest) = header_tail ++ rest.
Proof. unfold header_tail. apply drop_app_le. vm_compute. lia. Qed.

Lemma header_tail_len : Bytes.len header_tail = 124.
Proof. reflexivity. Qed.

Lemma profile_shape r g b d c (profile : bytes) :
  create_icc_profile_with r g b d c = Ok profile ->
  exists (p : payloads) (psize pcount : bytes) (packed : list bytes),
    built r g b d c p /\
    Struct.pack_I (Bytes.len profile) = Ok psize /\
    Struct.pack_I 9 = Ok pcount /\
    Forall2 entry_bytes (layout 240 (tag_signatures p)) packed /\
    profile = psize ++ header_tail ++ pcount ++ concat packed ++
              padded_data (tag_signatures p).
Proof.
  intros H. unfold create_icc_profile_with in H.
  rewrite header_ok in H. cbn [bind] in H.
  bind_inv H as red_curve Ered. bind_inv H as green_curve Egreen.
  bind_inv H as blue_curve Eblue.
  bind_inv H as rt Ert. bind_inv H as gt Egt. bind_inv H as bt Ebt.
  bind_inv H as dt Edt. bind_inv H as ct Ect.
  bind_inv H as wt Ewt. bind_inv H as rX ErX.
  bind_inv H as gX EgX. bind_inv H as bX EbX.
  bind_inv H as st Est. bind_inv H as pcount Ecount. bind_inv H as psize Esize.
  rewrite header_split in H. apply Ok_inj in H. subst profile.
  set (p := Payloads dt ct wt rX gX bX rt gt bt).
  change (tag_loop (tag_signatures p) (Assembly [] [] 240) = Ok st) in Est.
  apply tag_loop_inv in Est as (packed & Ht & Hl & Hd & _).
  cbn [tag_table_entries tag_data_section current_offset app] in Ht, Hl, Hd.
  exists p, psize, pcount, packed.
  split; [unfold built; simpl; eauto 20|].
  rewrite Ht, Hd in *. unfold Bytes.join in *.
  rewrite <- !app_assoc.
  split; [|auto].
  rewrite <- Esize. f_equal.
  rewrite !len_app, header_len, header_tail_len.
  apply pack_I_inv in Esize as (_ & L & _). unfold Bytes.len at 1. rewrite L. lia.
Qed.

Lemma tag_signatures_sigs (p : payloads) :
  Forall (fun e => length (e_sig e) = 4%nat) (layout 240 (tag_signatures p)).
Proof. unfold tag_signatures. cbn [layout fst]. repeat constructor. Qed.

(** What a reader finds in an assembled profile. *)
Lemma profile_read r g b d c (profile : bytes) :
  create_icc_profile_with r g b d c = Ok profile ->
  exists p : payloads,
    built r g b d c p /\
    size_field profile = Bytes.len profile /\
    tag_count_field profile = 9 /\
    read_tag_table profile = layout 240 (tag_signatures p) /\
    Bytes.len profile = 240 + Bytes.len (padded_data (tag_signatures p)) /\
    Forall2 (fun e t => tag_payload profile e = padded t)
            (layout 240 (tag_signatures p)) (tag_signatures p).
Proof.
  intros H.
  apply profile_shape in H as (p & psize & pcount & packed & Hb & Hs & Hc & Hl & ->).
  exists p. split; [exact Hb|].
  set (tags := tag_signatures p) in *.
  set (tail := padded_data tags) in *.
  apply pack_I_inv in Hs as (_ & Ls & Vs).
  apply pack_I_inv in Hc as (_ & Lc & Vc).
  assert (Hcount : tag_count_field
                     (psize ++ header_tail ++ pcount ++ concat packed ++ tail) = 9).
  { unfold tag_count_field. rewrite <- Vc. f_equal.
    rewrite (app_assoc psize). apply slice_app.
    - rewrite len_app, header_tail_len. unfold Bytes.len. lia.
    - unfold Bytes.len. lia. }
  destruct (read_entries _ _ Hl (tag_signatures_sigs p)
              (psize ++ header_tail ++ pcount) tail 0 ltac:(lia))
    as [Hread Hlen].
  { rewrite !len_app, header_tail_len. unfold Bytes.len. lia. }
  rewrite layout_length in Hread, Hlen.
  rewrite <- !app_assoc in Hread.
  assert (Hpre : Bytes.len (psize ++ header_tail ++ pcount ++ concat packed) = 240).
  { rewrite !len_app, header_tail_len, Hlen. unfold Bytes.len. simpl length. lia. }
  split; [|split; [exact Hcount|split; [|split]]].
  - unfold size_field. transitivity (Bytes.to_int psize); [f_equal | exact Vs].
    apply (slice_app [] psize); unfold Bytes.len; simpl; lia.
  - unfold read_tag_table. rewrite Hcount. exact Hread.
  - rewrite <- Hpre, <- len_app, <- !app_assoc. reflexivity.
  - rewrite <- Hpre.
    replace (psize ++ header_tail ++ pcount ++ concat packed ++ tail)
      with ((psize ++ header_tail ++ pcount ++ concat packed) ++ tail)
      by now rewrite <- !app_assoc.
    apply layout_payloads.
Qed.

(** ** Spans of contiguous entries *)

Lemma contiguous_bounds (start stop : Z) (es : list tag_entry) :
  contiguous start es stop ->
  start <= stop /\
  forall (i : nat) (e : tag_entry), es !! i = Some e ->
    start <= e_offset e /\ 0 < e_length e /\ e_offset e + e_length e <= stop.
Proof.
  induction 1 as [stop|e es stop Hpos _ [IHle IH]].
  - split; [lia|]. intros i e Hi. discriminate Hi.
  - split; [lia|]. intros [|i] e' Hi; simpl in Hi.
    + injection Hi as <-. lia.
    + specialize (IH i e' Hi). lia.
Qed.

Lemma contiguous_ordered (start stop : Z) (es : list tag_entry) :
  contiguous start es stop ->
  forall (i j : nat) (ei ej : tag_entry),
    (i < j)%nat -> es !! i = Some ei -> es !! j = Some ej ->
    e_offset ei + e_length ei <= e_offset ej.
Proof.
  induction 1 as [stop|e es stop Hpos Htail IH]; intros i j ei ej Hij Hi Hj.
  - discriminate Hi.
  - destruct j as [|j]; [lia|]. simpl in Hj. destruct i as [|i]; simpl in Hi.
    + injection Hi as <-.
      apply contiguous_bounds in Htail as [_ Hb]. specialize (Hb j ej Hj). lia.
    + apply (IH i j); [lia | assumption | assumption].
Qed.

Lemma contiguous_adjacent (start stop : Z) (es : list tag_entry) :
  contiguous start es stop ->
  forall (i : nat) (e e' : tag_entry),
    es !! i = Some e -> es !! S i = Some e' ->
    e_offset e' = e_offset e + e_length e.
Proof.
  induction 1 as [stop|e0 es stop Hpos Htail IH]; intros i e e' Hi Hj.
  - discriminate Hi.
  - destruct i as [|i]; simpl in Hi, Hj.
    + injection Hi as <-. destruct Htail; [discriminate Hj|].
      simpl in Hj. now injection Hj as <-.
    + apply (IH i); assumption.
Qed.

Lemma xyz_tag_6FA2 :
  create_xyz_tag 0x00006FA2 0x00010000 0x0000D32D = Ok xyz_6FA2.
Proof. vm_compute. reflexivity. Qed.

(** ** Properties of every assembled profile

    [profile] is what the body of [create_icc_profile] returns for some
    offsets and texts. *)

Section AssembledProfile.

Variables (r g b : Z) (d c : str) (profile : bytes).
Hypothesis Hprofile : create_icc_profile_with r g b d c = Ok profile.

(** C2. The first four bytes of an assembled profile are the big-endian
    packing of its total length in bytes, so the size field read back is
    the length of the whole profile; a profile is at least the 240 bytes
    of header and tag table, and its length fits the field. *)
Theorem size_field_is_total_length :
  exists psize : bytes,
    Struct.pack_I (Bytes.len profile) = Ok psize /\
    length psize = 4%nat /\
    take 4 profile = psize /\
    size_field profile = Bytes.len profile /\
    240 <= Bytes.len profile <= 4294967295.
Proof using Hprofile.
  destruct (profile_read _ _ _ _ _ _ Hprofile) as (p & _ & Hsize & _ & _ & Hlen & _).
  destruct (profile_shape _ _ _ _ _ _ Hprofile)
    as (p' & psize & pcount & packed & _ & Hs & _ & _ & Hp).
  exists psize. split; [exact Hs|].
  apply pack_I_inv in Hs as (Hrange & L & _).
  split; [exact L|]. split; [|split; [exact Hsize|]].
  - rewrite Hp. now apply take_app_length'.
  - pose proof (len_nonneg (padded_data (tag_signatures p))). lia.
Qed.

(** C4. The assembled profile has a tag count of 9 and its tag table lists
    description, copyright, white point, red, green and blue primary, red,
    green and blue tone curve, in this order. *)
Theorem tag_table_order :
  tag_count_field profile = 9 /\
  map e_sig (read_tag_table profile) =
    [Bytes.lit "desc"; Bytes.lit "cprt"; Bytes.lit "wtpt";
     Bytes.lit "rXYZ"; Bytes.lit "gXYZ"; Bytes.lit "bXYZ";
     Bytes.lit "rTRC"; Bytes.lit "gTRC"; Bytes.lit "bTRC"].
Proof using Hprofile.
  destruct (profile_read _ _ _ _ _ _ Hprofile) as (p & _ & _ & Hc & Hr & _).
  split; [exact Hc|]. rewrite Hr, layout_sigs. reflexivity.
Qed.

(** C3. In the tag table of an assembled profile the offsets strictly
    increase, every span lies inside the data section, no two spans
    overlap, and consecutive spans are at most 3 bytes apart. *)
Theorem tag_table_spans :
  (forall (i j : nat) (ei ej : tag_entry),
     (i < j)%nat ->
     read_tag_table profile !! i = Some ei ->
     read_tag_table profile !! j = Some ej ->
     e_offset ei < e_offset ej /\ e_offset ei + e_length ei <= e_offset ej) /\
  (forall (i : nat) (e : tag_entry),
     read_tag_table profile !! i = Some e ->
     data_section_start profile <= e_offset e /\ 0 < e_length e /\
     e_offset e + e_length e <= Bytes.len profile) /\
  (forall (i : nat) (e e' : tag_entry),
     read_tag_table profile !! i = Some e ->
     read_tag_table profile !! S i = Some e' ->
     0 <= e_offset e' - (e_offset e + e_length e) <= 3).
Proof using Hprofile.
  destruct (profile_read _ _ _ _ _ _ Hprofile) as (p & Hb & _ & Hc & Hr & Hlen & _).
  pose proof (layout_contiguous 240 _ (built_nonempty _ _ _ _ _ _ Hb)) as C.
  rewrite <- Hlen, <- Hr in C.
  unfold data_section_start. rewrite Hc.
  pose proof (contiguous_bounds _ _ _ C) as [_ B].
  split; [|split].
  - intros i j ei ej Hij Hi Hj.
    pose proof (contiguous_ordered _ _ _ C i j ei ej Hij Hi Hj).
    pose proof (B i ei Hi). lia.
  - intros i e Hi. pose proof (B i e Hi). lia.
  - intros i e e' Hi Hj.
    pose proof (contiguous_adjacent _ _ _ C i e e' Hi Hj). lia.
Qed.

(** C10. The payloads the tag table records for the green and for the blue
    primary are the same 20 bytes, an XYZ tag with X = 0x00006FA2,
    Y = 0x00010000 and Z = 0x0000D32D; the two entries differ in their
    signatures. *)
Theorem green_blue_primaries_identical :
  exists eg eb : tag_entry,
    read_tag_table profile !! 4%nat = Some eg /\
    read_tag_table profile !! 5%nat = Some eb /\
    e_sig eg = Bytes.lit "gXYZ" /\ e_sig eb = Bytes.lit "bXYZ" /\
    e_sig eg <> e_sig eb /\
    tag_payload profile eg = tag_payload profile eb /\
    tag_payload profile eg = xyz_6FA2 /\
    Bytes.slice 0 4 xyz_6FA2 = Bytes.lit "XYZ " /\
    Bytes.to_int (Bytes.slice 8 4 xyz_6FA2) = 0x00006FA2 /\
    Bytes.to_int (Bytes.slice 12 4 xyz_6FA2) = 0x00010000 /\
    Bytes.to_int (Bytes.slice 16 4 xyz_6FA2) = 0x0000D32D.
Proof using Hprofile.
  destruct (profile_read _ _ _ _ _ _ Hprofile) as (p & Hb & _ & _ & Hr & _ & Hp).
  destruct Hb as (_ & _ & _ & _ & Eg & Eb & _).
  rewrite xyz_tag_6FA2 in Eg, Eb. apply Ok_inj in Eg, Eb.
  unfold tag_signatures in Hr, Hp. cbn [layout fst] in Hr, Hp.
  repeat match type of Hp with
         | Forall2 _ (_ :: _) (_ :: _) =>
             let P := fresh "P" in apply Forall2_cons in Hp as [P Hp]
         end.
  assert (Pg : padded (Bytes.lit "gXYZ", p_gXYZ p) = xyz_6FA2)
    by (unfold padded; cbn [snd]; rewrite <- Eg; reflexivity).
  assert (Pb : padded (Bytes.lit "bXYZ", p_bXYZ p) = xyz_6FA2)
    by (unfold padded; cbn [snd]; rewrite <- Eb; reflexivity).
  eexists _, _. rewrite Hr.
  split; [reflexivity|]. split; [reflexivity|].
  split; [reflexivity|]. split; [reflexivity|].
  split; [cbn [e_sig]; vm_compute; discriminate|].
  split; [now rewrite P3, P4, Pg, Pb|]. split; [now rewrite P3|].
  repeat split; vm_compute; reflexivity.
Qed.

End AssembledProfile.

(** The script's own run, as the instance of the four theorems. *)

Lemma size_field_is_total_length_witness :
  create_icc_profile_with 22 0 0
    (text "Red+22 Test Profile") (text "Public Domain") = Ok red_plus_22 /\
  exists psize : bytes,
    Struct.pack_I (Bytes.len red_plus_22) = Ok psize /\
    length psize = 4%nat /\
    take 4 red_plus_22 = psize /\
    size_field red_plus_22 = Bytes.len red_plus_22 /\
    240 <= Bytes.len red_plus_22 <= 4294967295.
Proof.
  split; [vm_compute; reflexivity|].
  apply (size_field_is_total_length 22 0 0
           (text "Red+22 Test Profile") (text "Public Domain")).
  vm_compute. reflexivity.
Defined.

Lemma tag_table_order_witness :
  create_icc_profile_with 22 0 0
    (text "Red+22 Test Profile") (text "Public Domain") = Ok red_plus_22 /\
  tag_count_field red_plus_22 = 9 /\
  map e_sig (read_tag_table red_plus_22) =
    [Bytes.lit "desc"; Bytes.lit "cprt"; Bytes.lit "wtpt";
     Bytes.lit "rXYZ"; Bytes.lit "gXYZ"; Bytes.lit "bXYZ";
     Bytes.lit "rTRC"; Bytes.lit "gTRC"; Bytes.lit "bTRC"].
Proof.
  split; [vm_compute; reflexivity|].
  apply (tag_table_order 22 0 0
           (text "Red+22 Test Profile") (text "Public Domain")).
  vm_compute. reflexivity.
Defined.

Lemma tag_table_spans_witness :
  create_icc_profile_with 22 0 0
    (text "Red+22 Test Profile") (text "Public Domain") = Ok red_plus_22 /\
  read_tag_table red_plus_22 !! 0%nat = Some (TagEntry (Bytes.lit "desc") 240 44) /\
  read_tag_table red_plus_22 !! 1%nat = Some (TagEntry (Bytes.lit "cprt") 284 40) /\
  (240 < 284 /\ 240 + 44 <= 284) /\
  (data_section_start red_plus_22 <= 240 /\ 0 < 44 /\
   240 + 44 <= Bytes.len red_plus_22) /\
  0 <= 284 - (240 + 44) <= 3.
Proof.
  assert (E : create_icc_profile_with 22 0 0
                (text "Red+22 Test Profile") (text "Public Domain") = Ok red_plus_22)
    by (vm_compute; reflexivity).
  assert (E0 : read_tag_table red_plus_22 !! 0%nat
               = Some (TagEntry (Bytes.lit "desc") 240 44))
    by (vm_compute; reflexivity).
  assert (E1 : read_tag_table red_plus_22 !! 1%nat
               = Some (TagEntry (Bytes.lit "cprt") 284 40))
    by (vm_compute; reflexivity).
  destruct (tag_table_spans 22 0 0 _ _ red_plus_22 E) as (Hord & Hin & Hgap).
  split; [exact E|]. split; [exact E0|]. split; [exact E1|].
  split; [|split].
  - exact (Hord 0%nat 1%nat _ _ ltac:(lia) E0 E1).
  - exact (Hin 0%nat _ E0).
  - exact (Hgap 0%nat _ _ E0 E1).
Defined.

Lemma green_blue_primaries_identical_witness :
  create_icc_profile_with 22 0 0
    (text "Red+22 Test Profile") (text "Public Domain") = Ok red_plus_22 /\
  tag_payload red_plus_22 (TagEntry (Bytes.lit "gXYZ") 364 20) = xyz_6FA2 /\
  tag_payload red_plus_22 (TagEntry (Bytes.lit "bXYZ") 384 20) = xyz_6FA2.
Proof.
  assert (E : create_icc_profile_with 22 0 0
                (text "Red+22 Test Profile") (text "Public Domain") = Ok red_plus_22)
    by (vm_compute; reflexivity).
  destruct (green_blue_primaries_identical 22 0 0 _ _ red_plus_22 E)
    as (eg & eb & Hg & Hb & _ & _ & _ & Heq & Hx & _).
  assert (Eg : eg = TagEntry (Bytes.lit "gXYZ") 364 20)
    by (vm_compute in Hg; now injection Hg as <-).
  assert (Eb : eb = TagEntry (Bytes.lit "bXYZ") 384 20)
    by (vm_compute in Hb; now injection Hb as <-).
  subst eg eb.
  split; [exact E|]. split; [exact Hx|]. rewrite <- Heq. exact Hx.
Defined.


(** ** Texts the ASCII codec cannot encode *)

Lemma bad_run_le (rest : str) : (bad_run rest <= length rest)%nat.
Proof.
  induction rest as [|ch rest IH]; simpl; [lia|].
  destruct (is_ascii ch); lia.
Qed.

Lemma encode_from_ok (t : str) (pos : nat) (rest : str) :
  forallb is_ascii rest = true -> exists bs, encode_from t pos rest = Ok bs.
Proof.
  revert pos. induction rest as [|ch rest IH]; simpl; intros pos H.
  - eauto.
  - apply andb_prop in H as [Hch Hrest]. rewrite Hch.
    destruct (IH (S pos) Hrest) as [bs ->]. simpl. eauto.
Qed.

(** The codec stops at the first character it cannot encode and reports
    the run of such characters that starts there. *)
Lemma encode_from_raises (t : str) (pos : nat) (rest : str) :
  forallb is_ascii rest = false ->
  exists start stop : nat,
    encode_from t pos rest =
      Raise (UnicodeEncodeError "ascii" t start stop "ordinal not in range(128)") /\
    (pos <= start)%nat /\ (start < stop)%nat /\ (stop <= pos + length rest)%nat /\
    exists ch, rest !! (start - pos)%nat = Some ch /\ is_ascii ch = false.
Proof.
  revert pos. induction rest as [|ch rest IH]; simpl; intros pos H.
  - discriminate H.
  - destruct (is_ascii ch) eqn:Hch; simpl in H.
    + destruct (IH (S pos) H) as (start & stop & -> & Hs & Hlt & Hle & ch' & Hl & Ha).
      exists start, stop. simpl. split; [reflexivity|].
      split; [lia|]. split; [lia|]. split; [lia|].
      exists ch'. split; [|exact Ha].
      replace (start - pos)%nat with (S (start - S pos)) by lia. exact Hl.
    + exists pos, (pos + S (bad_run rest))%nat. split; [reflexivity|].
      pose proof (bad_run_le rest).
      split; [lia|]. split; [lia|]. split; [lia|].
      exists ch. rewrite Nat.sub_diag. auto.
Qed.

Lemma create_text_desc_tag_ok (t : str) :
  Z.of_nat (length t) < 4294967295 -> all_ascii t = true ->
  exists tag, create_text_desc_tag t = Ok tag.
Proof.
  intros Hlen Ha. unfold create_text_desc_tag, encode_ascii.
  destruct (pack_I_ok (Z.of_nat (length t) + 1) ltac:(lia)) as [bl ->].
  destruct (encode_from_ok t 0 t Ha) as [bs ->].
  simpl. eauto.
Qed.

Lemma create_text_desc_tag_raises (t : str) :
  Z.of_nat (length t) < 4294967295 -> all_ascii t = false ->
  exists start stop : nat,
    create_text_desc_tag t =
      Raise (UnicodeEncodeError "ascii" t start stop "ordinal not in range(128)") /\
    (start < stop <= length t)%nat /\
    exists ch, t !! start = Some ch /\ is_ascii ch = false.
Proof.
  intros Hlen Ha. unfold create_text_desc_tag, encode_ascii.
  destruct (pack_I_ok (Z.of_nat (length t) + 1) ltac:(lia)) as [bl ->].
  destruct (encode_from_raises t 0 t Ha)
    as (start & stop & -> & _ & Hlt & Hle & ch & Hl & Hch).
  exists start, stop. simpl. split; [reflexivity|]. split; [lia|].
  exists ch. rewrite Nat.sub_0_r in Hl. auto.
Qed.

(** The script reaches the two texts with everything before them built,
    so a failure of [create_icc_profile_with] on a text is the failure of
    [create_text_desc_tag], the description first. *)
Lemma profile_raises_desc r g b d c (e : exn) :
  create_text_desc_tag d = Raise e ->
  create_icc_profile_with r g b d c = Raise e.
Proof.
  intros H. unfold create_icc_profile_with.
  rewrite header_ok, !create_curve_data_ok. cbn [bind].
  destruct (create_curve_tag_ok r) as [rt ->].
  destruct (create_curve_tag_ok g) as [gt ->].
  destruct (create_curve_tag_ok b) as [bt ->].
  cbn [bind]. rewrite H. reflexivity.
Qed.

Lemma profile_raises_cprt r g b d c (tag : bytes) (e : exn) :
  create_text_desc_tag d = Ok tag ->
  create_text_desc_tag c = Raise e ->
  create_icc_profile_with r g b d c = Raise e.
Proof.
  intros Hd H. unfold create_icc_profile_with.
  rewrite header_ok, !create_curve_data_ok. cbn [bind].
  destruct (create_curve_tag_ok r) as [rt ->].
  destruct (create_curve_tag_ok g) as [gt ->].
  destruct (create_curve_tag_ok b) as [bt ->].
  cbn [bind]. rewrite Hd. cbn [bind]. rewrite H. reflexivity.
Qed.

Lemma bad_run_spec (rest : str) :
  (forall (i : nat) (ch : Z),
     (i < bad_run rest)%nat -> rest !! i = Some ch -> is_ascii ch = false) /\
  (forall ch : Z, rest !! bad_run rest = Some ch -> is_ascii ch = true).
Proof.
  induction rest as [|c0 rest [IHin IHend]]; simpl.
  - split; [intros; lia | discriminate].
  - destruct (is_ascii c0) eqn:E0.
    + split; [intros; lia|]. simpl. now intros ch [= <-].
    + split.
      * intros [|i] ch Hi Hl; simpl in Hl; [now injection Hl as <-|].
        apply (IHin i); [lia | exact Hl].
      * simpl. exact IHend.
Qed.

(** The range the codec reports, relative to where encoding resumed. *)
Lemma encode_from_first_run (t : str) (pos : nat) (rest : str) :
  forallb is_ascii rest = false ->
  exists start stop : nat,
    encode_from t pos rest =
      Raise (UnicodeEncodeError "ascii" t (pos + start) (pos + stop)
                                "ordinal not in range(128)") /\
    first_bad_run rest start stop.
Proof.
  revert pos. induction rest as [|c0 rest IH]; simpl; intros pos H.
  - discriminate H.
  - destruct (is_ascii c0) eqn:E0; simpl in H.
    + destruct (IH (S pos) H) as (start & stop & -> & Hr & Hbefore & Hin & Hend).
      exists (S start), (S stop). simpl.
      split; [now rewrite !Nat.add_succ_r|].
      split; [simpl; lia|]. split; [|split].
      * intros [|i] ch Hi Hl; simpl in Hl; [now injection Hl as <-|].
        apply (Hbefore i); [lia | exact Hl].
      * intros [|i] ch Hi Hl; [lia|]. simpl in Hl. apply (Hin i); [lia | exact Hl].
      * simpl. exact Hend.
    + destruct (bad_run_spec rest) as [Hin Hend].
      pose proof (bad_run_le rest) as Hle.
      exists 0%nat, (S (bad_run rest)).
      split; [now rewrite Nat.add_0_r|].
      split; [simpl; lia|]. split; [intros; lia|]. split.
      * intros [|i] ch Hi Hl; simpl in Hl; [now injection Hl as <-|].
        apply (Hin i); [lia | exact Hl].
      * simpl. exact Hend.
Qed.

Lemma create_text_desc_tag_first_run (t : str) :
  Z.of_nat (length t) < 4294967295 -> all_ascii t = false ->
  exists start stop : nat,
    create_text_desc_tag t =
      Raise (UnicodeEncodeError "ascii" t start stop "ordinal not in range(128)") /\
    first_bad_run t start stop.
Proof.
  intros Hlen Ha. unfold create_text_desc_tag, encode_ascii.
  destruct (pack_I_ok (Z.of_nat (length t) + 1) ltac:(lia)) as [bl ->].
  destruct (encode_from_first_run t 0 t Ha) as (start & stop & -> & Hrun).
  exists start, stop. split; [reflexivity | exact Hrun].
Qed.

(** C5, as the script behaves.  When the description or the copyright holds
    a character outside 0..127, building the profile raises the ASCII
    codec's [UnicodeEncodeError]; it carries the text that failed (the
    description when that is not ASCII, the copyright otherwise) and the
    positions of its first run of such characters, and no field name.
    [main] propagates it before the output file is opened: files and
    console are as they were. *)
Theorem non_ascii_text_rejected r g b d c (w : World) :
  Z.of_nat (length d) < 4294967295 ->
  Z.of_nat (length c) < 4294967295 ->
  all_ascii d && all_ascii c = false ->
  exists start stop : nat,
    let t := if all_ascii d then c else d in
    let e := UnicodeEncodeError "ascii" t start stop "ordinal not in range(128)" in
    first_bad_run t start stop /\
    (exists ch, t !! start = Some ch /\ is_ascii ch = false) /\
    create_icc_profile_with r g b d c = Raise e /\
    main_with r g b d c w = (w, Raise e).
Proof.
  intros Hd Hc Hbad.
  assert (Hmain : forall e, create_icc_profile_with r g b d c = Raise e ->
                            main_with r g b d c w = (w, Raise e)).
  { intros e He. unfold main_with. now rewrite He. }
  assert (Hat : forall (t : str) (start stop : nat),
             first_bad_run t start stop ->
             exists ch, t !! start = Some ch /\ is_ascii ch = false).
  { intros t start stop (Hr & _ & Hin & _).
    destruct (lookup_lt_is_Some_2 t start ltac:(lia)) as [ch Hch].
    exists ch. split; [exact Hch|]. apply (Hin start); [lia | exact Hch]. }
  destruct (all_ascii d) eqn:Ed; simpl in Hbad.
  - destruct (create_text_desc_tag_ok d Hd Ed) as [tag Htag].
    destruct (create_text_desc_tag_first_run c Hc Hbad) as (start & stop & E & Hrun).
    exists start, stop. cbn zeta.
    pose proof (profile_raises_cprt r g b d c _ _ Htag E) as H.
    split; [exact Hrun|]. split; [exact (Hat _ _ _ Hrun)|]. split; [exact H | auto].
  - destruct (create_text_desc_tag_first_run d Hd Ed) as (start & stop & E & Hrun).
    exists start, stop. cbn zeta.
    pose proof (profile_raises_desc r g b d c _ E) as H.
    split; [exact Hrun|]. split; [exact (Hat _ _ _ Hrun)|]. split; [exact H | auto].
Qed.

Lemma non_ascii_text_rejected_witness :
  let d := [97; 233; 232; 98; 231] in
  let c := text "Public Domain" in
  let w := MkWorld ∅ [] 0 in
  let e := UnicodeEncodeError "ascii" d 1 3 "ordinal not in range(128)" in
  Z.of_nat (length d) < 4294967295 /\
  Z.of_nat (length c) < 4294967295 /\
  all_ascii d && all_ascii c = false /\
  create_icc_profile_with 22 0 0 d c = Raise e /\
  main_with 22 0 0 d c w = (w, Raise e).
Proof.
  intros d c w e.
  split; [reflexivity|]. split; [reflexivity|]. split; [reflexivity|].
  destruct (non_ascii_text_rejected 22 0 0 d c w)
    as (start & stop & Hrun & _ & E & M); [reflexivity..|].
  cbn zeta in Hrun, E, M.
  change (if all_ascii d then c else d) with d in Hrun, E, M.
  destruct Hrun as (Hr & Hbefore & Hin & Hend).
  assert (Es : start = 1%nat).
  { destruct start as [|[|start]]; [exfalso | reflexivity | exfalso].
    - pose proof (Hin 0%nat 97 ltac:(lia) eq_refl) as F. discriminate F.
    - pose proof (Hbefore 1%nat 233 ltac:(lia) eq_refl) as F. discriminate F. }
  subst start.
  assert (Et : stop = 3%nat).
  { destruct stop as [|[|[|[|stop]]]]; [lia | lia | exfalso | reflexivity | exfalso].
    - pose proof (Hend 232 eq_refl) as F. discriminate F.
    - pose proof (Hin 3%nat 98 ltac:(lia) eq_refl) as F. discriminate F. }
  subst stop. split; [exact E | exact M].
Defined.

(** C5, as stated, fails: the exception cannot name the offending field.
    One and the same exception is raised when the text [é] is the
    description and when it is the copyright. *)
Lemma exception_does_not_identify_field :
  ~ exists field_of : exn -> field, identifies_field field_of.
Proof.
  intros [field_of H].
  pose (e := UnicodeEncodeError "ascii" [233] 0 1 "ordinal not in range(128)").
  assert (E1 : create_icc_profile_with 22 0 0 [233] (text "A") = Raise e)
    by (vm_compute; reflexivity).
  assert (E2 : create_icc_profile_with 22 0 0 (text "A") [233] = Raise e)
    by (vm_compute; reflexivity).
  destruct (H _ _ _ _ _ _ E1) as [H1 _].
  destruct (H _ _ _ _ _ _ E2) as [_ H2].
  specialize (H1 eq_refl). specialize (H2 eq_refl eq_refl).
  rewrite H1 in H2. discriminate H2.
Qed.

(** ** What main writes *)

Lemma saved_file (data : bytes) (w : World) :
  files (save_and_report data w) !! output_file = Some data.
Proof.
  unfold save_and_report, print, file_write, open_wb. cbn [files].
  now rewrite lookup_alter_eq, lookup_insert_eq.
Qed.

Lemma header_tail_date :
  header_tail = take 20 header_tail ++ creation_date ++ drop 32 header_tail.
Proof. reflexivity. Qed.

Lemma profile_creation_date r g b d c (profile : bytes) :
  create_icc_profile_with r g b d c = Ok profile ->
  Bytes.slice 24 12 profile = creation_date.
Proof.
  intros H.
  apply profile_shape in H as (p & psize & pcount & packed & _ & Hs & _ & _ & ->).
  apply pack_I_inv in Hs as (_ & Ls & _).
  rewrite header_tail_date, <- !app_assoc, (app_assoc psize).
  apply slice_app; [|reflexivity].
  rewrite len_app. unfold Bytes.len. rewrite Ls. reflexivity.
Qed.

Lemma create_icc_profile_ok : create_icc_profile = Ok red_plus_22.
Proof. vm_compute. reflexivity. Qed.

(** C6. The encoder is deterministic.  Two runs on the same inputs end the
    same way whatever the wall clock, the console and the files were
    before; when the profile is built, both runs leave exactly its bytes in
    the output file, and bytes 24..35 of it are the constant creation date
    of the header.  The script itself always writes the same 1976 bytes. *)
Theorem encoder_deterministic r g b d c (w1 w2 : World) :
  snd (main_with r g b d c w1) = snd (main_with r g b d c w2) /\
  (forall profile : bytes,
     create_icc_profile_with r g b d c = Ok profile ->
     files (fst (main_with r g b d c w1)) !! output_file = Some profile /\
     files (fst (main_with r g b d c w2)) !! output_file = Some profile /\
     Bytes.slice 24 12 profile = creation_date) /\
  files (fst (main w1)) !! output_file = Some red_plus_22 /\
  files (fst (main w2)) !! output_file = Some red_plus_22.
Proof.
  split; [|split; [|split]].
  - unfold main_with. now destruct (create_icc_profile_with r g b d c).
  - intros profile H. unfold main_with. rewrite H. cbn [fst].
    rewrite !saved_file. split; [reflexivity|]. split; [reflexivity|].
    exact (profile_creation_date _ _ _ _ _ _ H).
  - unfold main. rewrite create_icc_profile_ok. apply saved_file.
  - unfold main. rewrite create_icc_profile_ok. apply saved_file.
Qed.

Lemma encoder_deterministic_witness :
  let d := text "Red+22 Test Profile" in
  let c := text "Public Domain" in
  let w1 := MkWorld ∅ [] 0 in
  let w2 := MkWorld {[ output_file := [x01; x02] ]} ["earlier line"%string] 1762128000 in
  create_icc_profile_with 22 0 0 d c = Ok red_plus_22 /\
  files (fst (main_with 22 0 0 d c w1)) !! output_file = Some red_plus_22 /\
  files (fst (main_with 22 0 0 d c w2)) !! output_file = Some red_plus_22 /\
  Bytes.slice 24 12 red_plus_22 = creation_date.
Proof.
  intros d c w1 w2.
  assert (E : create_icc_profile_with 22 0 0 d c = Ok red_plus_22)
    by (vm_compute; reflexivity).
  split; [exact E|].
  exact (proj1 (proj2 (encoder_deterministic 22 0 0 d c w1 w2)) red_plus_22 E).
Defined.

(** ** The profile is built for every pair of ASCII texts of sane length *)

Lemma tag_loop_ok (tags : list (bytes * bytes)) (st : assembly) :
  0 <= current_offset st ->
  current_offset st + Bytes.len (padded_data tags) <= 4294967295 ->
  exists st', tag_loop tags st = Ok st'.
Proof.
  revert st. induction tags as [|[sig tag_data] tags IH]; intros st H0 Hmax; simpl.
  - eauto.
  - rewrite padded_data_cons, len_app in Hmax. unfold padded in Hmax. simpl in Hmax.
    pose proof (len_nonneg (pad_to_4bytes tag_data)).
    pose proof (len_nonneg (padded_data tags)).
    destruct (pack_I_ok (current_offset st) ltac:(lia)) as [po ->].
    destruct (pack_I_ok (Bytes.len (pad_to_4bytes tag_data)) ltac:(lia)) as [pl ->].
    simpl. apply IH; simpl; lia.
Qed.

Lemma create_xyz_tag_ok (x y z : Z) :
  0 <= x <= 4294967295 -> 0 <= y <= 4294967295 -> 0 <= z <= 4294967295 ->
  exists tag, create_xyz_tag x y z = Ok tag.
Proof.
  intros Hx Hy Hz. unfold create_xyz_tag, Struct.pack_III.
  destruct (pack_I_ok x Hx) as [bx ->].
  destruct (pack_I_ok y Hy) as [by_ ->].
  destruct (pack_I_ok z Hz) as [bz ->].
  simpl. eauto.
Qed.

Lemma padded_len_le (t : bytes * bytes) : Bytes.len (padded t) <= Bytes.len (snd t) + 3.
Proof. unfold padded. pose proof (pad_len_bounds (snd t)). lia. Qed.

Lemma padded_data_len_le (tags : list (bytes * bytes)) :
  Bytes.len (padded_data tags)
  <= foldr (fun t acc => Bytes.len (snd t) + 3 + acc) 0 tags.
Proof.
  induction tags as [|t tags IH]; [reflexivity|].
  rewrite padded_data_cons, len_app. simpl foldr.
  pose proof (padded_len_le t). lia.
Qed.

Lemma create_icc_profile_with_ok r g b d c :
  all_ascii d = true -> all_ascii c = true ->
  Z.of_nat (length d) + Z.of_nat (length c) <= 4000000000 ->
  exists profile, create_icc_profile_with r g b d c = Ok profile.
Proof.
  intros Ad Ac Hlen. unfold create_icc_profile_with.
  rewrite header_ok, !create_curve_data_ok. cbn [bind].
  destruct (create_curve_tag_ok r) as [rt Ert]. rewrite Ert.
  destruct (create_curve_tag_ok g) as [gt Egt]. rewrite Egt.
  destruct (create_curve_tag_ok b) as [bt Ebt]. rewrite Ebt.
  destruct (create_text_desc_tag_ok d ltac:(lia) Ad) as [dt Edt]. rewrite Edt.
  destruct (create_text_desc_tag_ok c ltac:(lia) Ac) as [ct Ect]. rewrite Ect.
  destruct (create_xyz_tag_ok 0x0000F6D6 0x00010000 0x0000D32D) as [wt Ewt]; [lia..|].
  destruct (create_xyz_tag_ok 0x0000F351 0x00010000 0x0000D32D) as [rX ErX]; [lia..|].
  destruct (create_xyz_tag_ok 0x00006FA2 0x00010000 0x0000D32D) as [gX EgX]; [lia..|].
  rewrite Ewt, ErX, EgX. cbn [bind].
  set (p := Payloads dt ct wt rX gX gX rt gt bt).
  change [_; _; _; _; _; _; _; _; _] with (tag_signatures p).
  apply create_curve_tag_len in Ert, Egt, Ebt.
  rewrite length_map in Ert, Egt, Ebt. unfold range in Ert, Egt, Ebt.
  rewrite length_seqZ in Ert, Egt, Ebt.
  apply create_text_desc_tag_len in Edt, Ect.
  apply create_xyz_tag_len in Ewt, ErX, EgX.
  assert (Hdata : Bytes.len (padded_data (tag_signatures p)) <= 4000002000).
  { pose proof (padded_data_len_le (tag_signatures p)) as L.
    unfold tag_signatures in L at 2. cbn [foldr snd p p_desc p_cprt p_wtpt p_rXYZ
      p_gXYZ p_bXYZ p_rTRC p_gTRC p_bTRC] in L. lia. }
  destruct (tag_loop_ok (tag_signatures p) (Assembly [] [] (128 + 4 + 9 * 12)))
    as [st Est]; [simpl; lia | simpl; lia |].
  rewrite Est. cbn [bind].
  apply tag_loop_inv in Est as (packed & Ht & Hl & Hd & _).
  cbn [tag_table_entries tag_data_section current_offset app] in Ht, Hl, Hd.
  destruct (read_entries _ _ Hl (tag_signatures_sigs p) (replicate 132 x00) [] 0
              ltac:(lia) ltac:(reflexivity)) as [_ Hpk].
  rewrite layout_length in Hpk.
  destruct (pack_I_ok 9 ltac:(lia)) as [pcount Ecount]. rewrite Ecount. cbn [bind].
  apply pack_I_inv in Ecount as (_ & Lc & _).
  match goal with
  | |- context [Struct.pack_I ?n] =>
      destruct (pack_I_ok n) as [psize ->]; [|cbn [bind]; eauto]
  end.
  rewrite Ht, Hd. unfold Bytes.join.
  rewrite !len_app, header_len, Hpk.
  pose proof (len_nonneg (padded_data (tag_signatures p))).
  assert (Lp : Bytes.len pcount = 4) by (unfold Bytes.len; lia).
  rewrite Lp. simpl length. lia.
Qed.

(** * Further properties of the script *)

(** ** Padding *)

Lemma pad4_of_len (n k : Z) :
  0 <= k <= 3 -> (n + k) mod 4 = 0 -> pad4 n = n + k.
Proof.
  intros Hk Hm. unfold pad4.
  pose proof (Z.div_mod (n + k) 4 ltac:(lia)) as Hd. rewrite Hm in Hd.
  replace (n + 3) with ((3 - k) + (n + k) / 4 * 4) by lia.
  rewrite Z.div_add by lia. rewrite (Z.div_small (3 - k) 4) by lia. lia.
Qed.

Lemma pad_appends (data : bytes) :
  exists k : Z,
    0 <= k <= 3 /\
    pad_to_4bytes data = data ++ Bytes.zeros k /\
    (Bytes.len data + k) mod 4 = 0.
Proof.
  unfold pad_to_4bytes.
  pose proof (Z.mod_pos_bound (Bytes.len data) 4 ltac:(lia)) as Hr.
  pose proof (Z.div_mod (Bytes.len data) 4 ltac:(lia)) as Hd.
  destruct (Z.eqb_spec (Bytes.len data mod 4) 0) as [E|E].
  - exists 0. split; [lia|]. split; [now rewrite app_nil_r|].
    now rewrite Z.add_0_r.
  - exists (4 - Bytes.len data mod 4).
    split; [lia|]. split; [reflexivity|].
    replace (Bytes.len data + (4 - Bytes.len data mod 4))
      with ((Bytes.len data / 4 + 1) * 4) by lia.
    apply Z.mod_mul. lia.
Qed.

Lemma pad_shape (data : bytes) :
  exists k : Z,
    0 <= k <= 3 /\
    pad_to_4bytes data = data ++ Bytes.zeros k /\
    (Bytes.len data + k) mod 4 = 0 /\
    Bytes.len (pad_to_4bytes data) = pad4 (Bytes.len data).
Proof.
  destruct (pad_appends data) as (k & Hk & E & Hm).
  exists k. split; [exact Hk|]. split; [exact E|]. split; [exact Hm|].
  rewrite E, len_app, len_zeros by lia. symmetry. now apply pad4_of_len.
Qed.

(** X1. Padding keeps the data as a prefix and appends the fewest zero
    bytes, at most three, that make the length a multiple of 4; nothing is
    appended to data that is empty or already aligned. *)
Theorem pad_to_4bytes_shape (data : bytes) :
  (exists k : Z,
     0 <= k <= 3 /\
     pad_to_4bytes data = data ++ Bytes.zeros k /\
     (Bytes.len data + k) mod 4 = 0 /\
     forall k' : Z, 0 <= k' -> (Bytes.len data + k') mod 4 = 0 -> k <= k') /\
  Bytes.len (pad_to_4bytes data) = pad4 (Bytes.len data) /\
  pad_to_4bytes [] = [].
Proof.
  split; [|split; [|reflexivity]].
  - destruct (pad_appends data) as (k & Hk & E & Hm).
    exists k. split; [exact Hk|]. split; [exact E|]. split; [exact Hm|].
    intros k' Hk' Hm'.
    destruct (Z_lt_le_dec k' k) as [Hlt|Hle]; [exfalso | exact Hle].
    assert (Hd : (k - k') mod 4 = 0).
    { replace (k - k') with ((Bytes.len data + k) - (Bytes.len data + k')) by lia.
      rewrite Zminus_mod, Hm, Hm'. reflexivity. }
    rewrite Z.mod_small in Hd by lia. lia.
  - destruct (pad_shape data) as (k & _ & _ & _ & E). exact E.
Qed.

Lemma pad_to_4bytes_shape_witness :
  exists k : Z,
    0 <= k <= 3 /\
    pad_to_4bytes (Bytes.lit "hello") = Bytes.lit "hello" ++ Bytes.zeros k /\
    (Bytes.len (Bytes.lit "hello") + k) mod 4 = 0 /\
    (0 <= 7 -> (Bytes.len (Bytes.lit "hello") + 7) mod 4 = 0 -> k <= 7).
Proof.
  destruct (proj1 (pad_to_4bytes_shape (Bytes.lit "hello"))) as (k & Hk & E & Hm & Hmin).
  exists k. split; [exact Hk|]. split; [exact E|]. split; [exact Hm|]. apply Hmin.
Defined.

(** ** The tone curve at and between the clamps *)

(** X2. A sample is 65535 exactly when index plus offset reaches 255, and 0
    exactly when index plus offset is at most 0. *)
Theorem tone_curve_saturation (o i : Z) :
  0 <= i <= 255 ->
  exists (curve : list Z) (v : Z),
    create_curve_data o = Ok curve /\
    curve !! Z.to_nat i = Some v /\
    (v = 65535 <-> 255 <= i + o) /\
    (v = 0 <-> i + o <= 0).
Proof.
  intros Hi. eexists _, (257 * level o i).
  split; [apply create_curve_data_ok|]. split.
  - apply curve_lookup. split; [lia|]. now rewrite Z2Nat.id by lia.
  - unfold level. lia.
Qed.

Lemma tone_curve_saturation_witness :
  0 <= 233 <= 255 /\
  exists (curve : list Z) (v : Z),
    create_curve_data 22 = Ok curve /\
    curve !! Z.to_nat 233 = Some v /\
    (v = 65535 <-> 255 <= 233 + 22) /\
    (v = 0 <-> 233 + 22 <= 0).
Proof. split; [lia|]. apply (tone_curve_saturation 22 233). lia. Defined.

(** X3. Between the clamps the curve with offset [o] is the identity ramp
    read [o] places further on: sample [i] of the one is sample [i + o] of
    the other, namely [257 * (i + o)]. *)
Theorem tone_curve_shift (o i : Z) :
  0 <= i <= 255 -> 0 <= i + o <= 255 ->
  exists (curve ramp : list Z),
    create_curve_data o = Ok curve /\
    create_curve_data 0 = Ok ramp /\
    curve !! Z.to_nat i = Some (257 * (i + o)) /\
    ramp !! Z.to_nat (i + o) = Some (257 * (i + o)).
Proof.
  intros Hi Hio. eexists _, _.
  split; [apply create_curve_data_ok|]. split; [apply create_curve_data_ok|].
  split; apply curve_lookup; (split; [lia|]);
    rewrite Z2Nat.id by lia; unfold level; lia.
Qed.

Lemma tone_curve_shift_witness :
  0 <= 100 <= 255 /\ 0 <= 100 + 22 <= 255 /\
  exists (curve ramp : list Z),
    create_curve_data 22 = Ok curve /\
    create_curve_data 0 = Ok ramp /\
    curve !! Z.to_nat 100 = Some (257 * (100 + 22)) /\
    ramp !! Z.to_nat (100 + 22) = Some (257 * (100 + 22)).
Proof.
  split; [lia|]. split; [lia|]. apply (tone_curve_shift 22 100); lia.
Defined.

(** ** The tag encoders and their decoders *)

Lemma slice_prefix (a b : bytes) (off n : Z) :
  0 <= off -> 0 <= n -> off + n <= Bytes.len a ->
  Bytes.slice off n (a ++ b) = Bytes.slice off n a.
Proof.
  intros Ho Hn Hle. unfold Bytes.slice, Bytes.len in *.
  rewrite drop_app_le by lia.
  apply take_app_le. rewrite length_drop. lia.
Qed.

(** Slicing a concatenation at the start of its [i]-th part gives the part. *)
Lemma slice_part (parts : list bytes) (i : nat) (part : bytes) (off n : Z) :
  parts !! i = Some part ->
  off = Bytes.len (concat (take i parts)) -> n = Bytes.len part ->
  Bytes.slice off n (concat parts) = part.
Proof.
  intros Hi -> ->.
  rewrite <- (take_drop_middle parts i part Hi) at 2.
  rewrite concat_app. simpl concat. now apply slice_app.
Qed.

Lemma pack_H_val (v : Z) (bs : bytes) :
  Struct.pack_H v = Ok bs -> Bytes.to_int bs = v.
Proof.
  unfold Struct.pack_H.
  destruct (Z.leb_spec 0 v), (Z.leb_spec v 65535); simpl;
    try (destruct (Struct.not_unsigned_long v); discriminate).
  intros [= <-]. unfold Bytes.to_int. simpl.
  rewrite !to_Z_of_Z, !land_255, !Z.shiftr_div_pow2 by lia.
  rewrite !Z.mod_mod by lia. change (2 ^ 8) with 256.
  Z.div_mod_to_equations. lia.
Qed.



(** The [i]-th pair of bytes of the packed samples is the [i]-th sample. *)
Lemma pack_values_slice (vs : list Z) :
  forall (bs pre post : bytes) (i : nat) (v : Z),
    pack_values vs = Ok bs -> vs !! i = Some v ->
    exists b, Struct.pack_H v = Ok b /\
      Bytes.slice (Bytes.len pre + 2 * Z.of_nat i) 2 (pre ++ bs ++ post) = b.
Proof.
  induction vs as [|v0 vs IH]; intros bs pre post i v H Hi; [discriminate Hi|].
  simpl in H. bind_inv H as b0 Eb0. bind_inv H as bs' Ebs. apply Ok_inj in H. subst bs.
  destruct i as [|i]; simpl in Hi.
  - injection Hi as <-. exists b0. split; [exact Eb0|].
    rewrite <- app_assoc. apply slice_app; [lia|].
    apply pack_H_inv in Eb0 as [_ L]. unfold Bytes.len. lia.
  - destruct (IH bs' (pre ++ b0) post i v Ebs Hi) as (b & Eb & Hs).
    exists b. split; [exact Eb|]. rewrite <- Hs, <- !app_assoc. f_equal.
    rewrite len_app. apply pack_H_inv in Eb0 as [_ L]. unfold Bytes.len. lia.
Qed.


Lemma encode_from_decode (t : str) (pos : nat) (rest : str) (bs : bytes) :
  encode_from t pos rest = Ok bs -> map Bytes.to_Z bs = rest.
Proof.
  revert pos bs. induction rest as [|ch rest IH]; simpl; intros pos bs H.
  - now apply Ok_inj in H as <-.
  - destruct (is_ascii ch) eqn:Hch; [|discriminate].
    bind_inv H as bs' E. apply Ok_inj in H as <-. simpl.
    rewrite (IH _ _ E), to_Z_of_Z. f_equal.
    unfold is_ascii in Hch. apply Z.mod_small. lia.
Qed.

(** X4. For coordinates that fit 32 unsigned bits [create_xyz_tag] returns
    20 bytes: the type [XYZ ], four zero bytes, and the three coordinates,
    which read back as they were given. *)
Theorem create_xyz_tag_round_trip (x y z : Z) :
  0 <= x <= 4294967295 -> 0 <= y <= 4294967295 -> 0 <= z <= 4294967295 ->
  exists tag : bytes,
    create_xyz_tag x y z = Ok tag /\
    Bytes.len tag = 20 /\
    tag_type tag = Bytes.lit "XYZ " /\
    tag_reserved tag = Bytes.zeros 4 /\
    read_xyz tag = (x, y, z).
Proof.
  intros Hx Hy Hz. unfold create_xyz_tag, Struct.pack_III.
  destruct (pack_I_ok x Hx) as [bx Ex]. destruct (pack_I_ok y Hy) as [by_ Ey].
  destruct (pack_I_ok z Hz) as [bz Ez].
  rewrite Ex, Ey, Ez. cbn [bind].
  apply pack_I_inv in Ex as (_ & Lx & Vx).
  apply pack_I_inv in Ey as (_ & Ly & Vy).
  apply pack_I_inv in Ez as (_ & Lz & Vz).
  eexists. split; [reflexivity|].
  set (parts := [Bytes.lit "XYZ "; [x00; x00; x00; x00]; bx; by_; bz]).
  replace (Bytes.lit "XYZ " ++ [x00; x00; x00; x00] ++ bx ++ by_ ++ bz)
    with (concat parts) by (unfold parts; simpl; now rewrite app_nil_r).
  assert (Hs : forall (i : nat) part off n,
             parts !! i = Some part ->
             off = Bytes.len (concat (take i parts)) -> n = Bytes.len part ->
             Bytes.slice off n (concat parts) = part)
    by (intros; eapply slice_part; eauto).
  split; [|split; [|split]].
  - unfold parts, Bytes.len. simpl. rewrite !length_app, Lx, Ly, Lz. reflexivity.
  - apply (Hs 0%nat); reflexivity.
  - apply (Hs 1%nat); reflexivity.
  - unfold read_xyz.
    rewrite (Hs 2%nat bx), (Hs 3%nat by_), (Hs 4%nat bz), Vx, Vy, Vz;
      try reflexivity;
      unfold parts, Bytes.len; simpl; rewrite ?length_app, ?Lx, ?Ly, ?Lz; reflexivity.
Qed.

Lemma create_xyz_tag_round_trip_witness :
  0 <= 0x00006FA2 <= 4294967295 /\ 0 <= 0x00010000 <= 4294967295 /\
  0 <= 0x0000D32D <= 4294967295 /\
  exists tag : bytes,
    create_xyz_tag 0x00006FA2 0x00010000 0x0000D32D = Ok tag /\
    Bytes.len tag = 20 /\
    tag_type tag = Bytes.lit "XYZ " /\
    tag_reserved tag = Bytes.zeros 4 /\
    read_xyz tag = (0x00006FA2, 0x00010000, 0x0000D32D).
Proof.
  split; [lia|]. split; [lia|]. split; [lia|].
  apply (create_xyz_tag_round_trip 0x00006FA2 0x00010000 0x0000D32D); lia.
Defined.



Lemma pack_values_read (vs : list Z) (bs pre post : bytes) :
  pack_values vs = Ok bs ->
  map (fun k => Bytes.to_int (Bytes.slice (Bytes.len pre + 2 * k) 2 (pre ++ bs ++ post)))
      (seqZ 0 (Z.of_nat (length vs))) = vs.
Proof.
  intros H. apply list_eq. intros i.
  change (map ?f ?l) with (f <$> l). rewrite list_lookup_fmap.
  destruct (vs !! i) as [v|] eqn:Hi.
  - pose proof (lookup_lt_Some _ _ _ Hi) as Hlt.
    rewrite lookup_seqZ_lt by lia. simpl.
    destruct (pack_values_slice vs bs pre post i v H Hi) as (b & Eb & Hs).
    rewrite Z.add_0_l, Hs. f_equal. now apply pack_H_val.
  - apply lookup_ge_None in Hi. rewrite lookup_seqZ_ge by lia. reflexivity.
Qed.

Lemma curve_tag_facts (values : list Z) (tag : bytes) :
  create_curve_tag values = Ok tag ->
  Bytes.len tag = 12 + 2 * Z.of_nat (length values) /\
  tag_type tag = Bytes.lit "curv" /\
  tag_reserved tag = Bytes.zeros 4 /\
  read_curve tag = values.
Proof.
  intros H. unfold create_curve_tag in H.
  bind_inv H as count Ec. bind_inv H as bs Eb.
  assert (E : tag = (Bytes.lit "curv" ++ [x00; x00; x00; x00] ++ count) ++ bs ++ [])
    by (apply Ok_inj in H; rewrite <- H, app_nil_r, <- !app_assoc; reflexivity).
  clear H. subst tag.
  pose proof (pack_values_inv _ _ Eb) as Lb.
  apply pack_I_inv in Ec as (_ & Lc & Vc).
  set (pre := Bytes.lit "curv" ++ [x00; x00; x00; x00] ++ count) in *.
  assert (Lpre : Bytes.len pre = 12)
    by (unfold pre, Bytes.len; simpl; rewrite Lc; reflexivity).
  split; [|split; [|split]].
  - rewrite !len_app, Lpre. unfold Bytes.len. rewrite Lb. simpl. lia.
  - unfold tag_type, pre. rewrite <- !app_assoc.
    apply (slice_app [] (Bytes.lit "curv")); reflexivity.
  - unfold tag_reserved, pre. rewrite <- !app_assoc.
    apply (slice_app (Bytes.lit "curv") [x00; x00; x00; x00]); reflexivity.
  - unfold read_curve.
    assert (Hc : Bytes.slice 8 4 (pre ++ bs ++ []) = count).
    { unfold pre. rewrite <- !app_assoc.
      replace (Bytes.lit "curv" ++ [x00; x00; x00; x00] ++ count ++ bs ++ [])
        with ((Bytes.lit "curv" ++ [x00; x00; x00; x00]) ++ count ++ bs ++ [])
        by now rewrite <- !app_assoc.
      apply slice_app; [reflexivity | unfold Bytes.len; lia]. }
    rewrite Hc, Vc, <- Lpre. now apply pack_values_read.
Qed.

(** X6. For samples that fit 16 unsigned bits [create_curve_tag] returns
    [12 + 2 * n] bytes: the type [curv], four zero bytes, the count [n] and
    the samples, which read back as the list that was encoded. *)
Theorem create_curve_tag_round_trip (values : list Z) :
  Forall (fun v => 0 <= v <= 65535) values ->
  Z.of_nat (length values) <= 4294967295 ->
  exists tag : bytes,
    create_curve_tag values = Ok tag /\
    Bytes.len tag = 12 + 2 * Z.of_nat (length values) /\
    tag_type tag = Bytes.lit "curv" /\
    tag_reserved tag = Bytes.zeros 4 /\
    read_curve tag = values.
Proof.
  intros Hv Hn.
  destruct (pack_I_ok (Z.of_nat (length values)) ltac:(lia)) as [count Ec].
  destruct (pack_values_ok values Hv) as (bs & Eb & _).
  assert (E : exists tag, create_curve_tag values = Ok tag)
    by (unfold create_curve_tag; rewrite Ec, Eb; simpl; eauto).
  destruct E as [tag E]. exists tag. split; [exact E|].
  now apply curve_tag_facts.
Qed.

Lemma create_curve_tag_round_trip_witness :
  Forall (fun v => 0 <= v <= 65535) [0; 257; 65535] /\
  Z.of_nat (length [0; 257; 65535]) <= 4294967295 /\
  exists tag : bytes,
    create_curve_tag [0; 257; 65535] = Ok tag /\
    Bytes.len tag = 12 + 2 * Z.of_nat (length [0; 257; 65535]) /\
    tag_type tag = Bytes.lit "curv" /\
    tag_reserved tag = Bytes.zeros 4 /\
    read_curve tag = [0; 257; 65535].
Proof.
  assert (H : Forall (fun v => 0 <= v <= 65535) [0; 257; 65535])
    by (repeat constructor; lia).
  split; [exact H|]. split; [simpl; lia|].
  apply (create_curve_tag_round_trip [0; 257; 65535] H). simpl. lia.
Defined.



Lemma pack_H_level (v : Z) :
  0 <= v <= 255 ->
  Struct.pack_H (257 * v) = Ok [Bytes.of_Z v; Bytes.of_Z v].
Proof.
  intros Hv. unfold Struct.pack_H.
  destruct (Z.leb_spec 0 (257 * v)), (Z.leb_spec (257 * v) 65535); simpl; try lia.
  rewrite !land_255, Z.shiftr_div_pow2 by lia. change (2 ^ 8) with 256.
  replace (257 * v / 256) with v by (Z.div_mod_to_equations; lia).
  replace ((257 * v) mod 256) with v by (Z.div_mod_to_equations; lia).
  now rewrite Z.mod_small by lia.
Qed.

(** X8. In the curve tag of an offset curve every sample is the clamped
    8-bit level written twice: the high byte and the low byte of sample [i]
    are both [min(255, max(0, i + offset))]. *)
Theorem curve_tag_sample_bytes (o i : Z) :
  0 <= i <= 255 ->
  exists (curve : list Z) (tag : bytes),
    create_curve_data o = Ok curve /\
    create_curve_tag curve = Ok tag /\
    Bytes.slice (12 + 2 * i) 2 tag =
      [Bytes.of_Z (Z.min 255 (Z.max 0 (i + o)));
       Bytes.of_Z (Z.min 255 (Z.max 0 (i + o)))].
Proof.
  intros Hi.
  set (curve := map (fun i => 257 * level o i) (range 256)).
  destruct (pack_I_ok (Z.of_nat (length curve)) ltac:(unfold curve;
              rewrite length_map; unfold range; rewrite length_seqZ; lia))
    as [count Ec].
  destruct (pack_values_ok curve (curve_samples_range o)) as (bs & Eb & _).
  assert (E : create_curve_tag curve =
              Ok ((Bytes.lit "curv" ++ [x00; x00; x00; x00] ++ count) ++ bs ++ []))
    by (unfold create_curve_tag; rewrite Ec, Eb; simpl; now rewrite app_nil_r).
  apply pack_I_inv in Ec as (_ & Lc & _).
  set (pre := Bytes.lit "curv" ++ [x00; x00; x00; x00] ++ count) in *.
  assert (Lpre : Bytes.len pre = 12)
    by (unfold pre, Bytes.len; simpl; rewrite Lc; reflexivity).
  exists curve, ((pre ++ bs ++ [])).
  split; [apply create_curve_data_ok|]. split; [exact E|].
  assert (Hl : curve !! Z.to_nat i = Some (257 * level o i)).
  { apply curve_lookup. split; [lia|]. now rewrite Z2Nat.id by lia. }
  destruct (pack_values_slice curve bs pre [] (Z.to_nat i) _ Eb Hl) as (b & Hb & Hs).
  rewrite Lpre, Z2Nat.id in Hs by lia. rewrite Hs.
  rewrite (pack_H_level (level o i) (level_range o i)) in Hb.
  now apply Ok_inj in Hb.
Qed.

Lemma curve_tag_sample_bytes_witness :
  0 <= 250 <= 255 /\
  exists (curve : list Z) (tag : bytes),
    create_curve_data 22 = Ok curve /\
    create_curve_tag curve = Ok tag /\
    Bytes.slice (12 + 2 * 250) 2 tag =
      [Bytes.of_Z (Z.min 255 (Z.max 0 (250 + 22)));
       Bytes.of_Z (Z.min 255 (Z.max 0 (250 + 22)))].
Proof. split; [lia|]. apply (curve_tag_sample_bytes 22 250). lia. Defined.

Lemma text_tag_facts (t : str) (tag : bytes) :
  create_text_desc_tag t = Ok tag ->
  Bytes.len tag = Z.of_nat (length t) + 24 /\
  tag_type tag = Bytes.lit "desc" /\
  tag_reserved tag = Bytes.zeros 4 /\
  Bytes.to_int (Bytes.slice 8 4 tag) = Z.of_nat (length t) + 1 /\
  read_text tag = t /\
  Bytes.slice (12 + Z.of_nat (length t)) 12 tag = Bytes.zeros 12.
Proof.
  intros H. unfold create_text_desc_tag, encode_ascii in H.
  bind_inv H as count Ec. bind_inv H as enc Ee.
  assert (E : tag = concat [Bytes.lit "desc"; Bytes.zeros 4; count; enc; Bytes.zeros 12])
    by (apply Ok_inj in H; rewrite <- H; simpl; now rewrite <- !app_assoc).
  clear H. subst tag.
  pose proof (encode_from_len _ _ _ _ Ee) as Le.
  pose proof (encode_from_decode _ _ _ _ Ee) as De.
  apply pack_I_inv in Ec as (_ & Lc & Vc).
  set (parts := [Bytes.lit "desc"; Bytes.zeros 4; count; enc; Bytes.zeros 12]) in *.
  assert (Hs : forall (i : nat) part off n,
             parts !! i = Some part ->
             off = Bytes.len (concat (take i parts)) -> n = Bytes.len part ->
             Bytes.slice off n (concat parts) = part)
    by (intros; eapply slice_part; eauto).
  assert (L3 : Bytes.len (concat (take 3 parts)) = 12)
    by (unfold parts, Bytes.len; simpl; rewrite !length_app, Lc; reflexivity).
  split; [|split; [|split; [|split; [|split]]]].
  - unfold parts, Bytes.len. simpl. rewrite !length_app, Lc, Le. simpl. lia.
  - apply (Hs 0%nat); reflexivity.
  - apply (Hs 1%nat); reflexivity.
  - rewrite (Hs 2%nat count); [exact Vc | reflexivity | reflexivity |].
    unfold Bytes.len. rewrite Lc. reflexivity.
  - unfold read_text. rewrite (Hs 2%nat count 8 4);
      [| reflexivity | reflexivity | unfold Bytes.len; rewrite Lc; reflexivity].
    rewrite Vc.
    rewrite (Hs 3%nat enc); [exact De | reflexivity | now rewrite L3 |].
    unfold Bytes.len. lia.
  - apply (Hs 4%nat); [reflexivity | | reflexivity].
    unfold parts, Bytes.len. simpl. rewrite !length_app, Lc, Le. simpl. lia.
Qed.

(** X9. For an ASCII text shorter than 2^32 - 1 characters
    [create_text_desc_tag] returns [len(text) + 24] bytes: the type [desc],
    four zero bytes, the count [len(text) + 1], the characters, and twelve
    zero bytes (the NUL and the empty Unicode and ScriptCode parts); the
    text reads back as it was given. *)
Theorem create_text_desc_tag_round_trip (t : str) :
  all_ascii t = true -> Z.of_nat (length t) < 4294967295 ->
  exists tag : bytes,
    create_text_desc_tag t = Ok tag /\
    Bytes.len tag = Z.of_nat (length t) + 24 /\
    tag_type tag = Bytes.lit "desc" /\
    tag_reserved tag = Bytes.zeros 4 /\
    Bytes.to_int (Bytes.slice 8 4 tag) = Z.of_nat (length t) + 1 /\
    read_text tag = t /\
    Bytes.slice (12 + Z.of_nat (length t)) 12 tag = Bytes.zeros 12.
Proof.
  intros Ha Hn.
  destruct (create_text_desc_tag_ok t Hn Ha) as [tag E].
  exists tag. split; [exact E|]. now apply text_tag_facts.
Qed.

Lemma create_text_desc_tag_round_trip_witness :
  let t := text "Public Domain" in
  all_ascii t = true /\ Z.of_nat (length t) < 4294967295 /\
  exists tag : bytes,
    create_text_desc_tag t = Ok tag /\
    Bytes.len tag = Z.of_nat (length t) + 24 /\
    tag_type tag = Bytes.lit "desc" /\
    tag_reserved tag = Bytes.zeros 4 /\
    Bytes.to_int (Bytes.slice 8 4 tag) = Z.of_nat (length t) + 1 /\
    read_text tag = t /\
    Bytes.slice (12 + Z.of_nat (length t)) 12 tag = Bytes.zeros 12.
Proof.
  intros t. split; [reflexivity|]. split; [reflexivity|].
  apply (create_text_desc_tag_round_trip t); reflexivity.
Defined.

Lemma xyz_tag_facts (x y z : Z) (tag : bytes) :
  create_xyz_tag x y z = Ok tag ->
  Bytes.len tag = 20 /\
  tag_type tag = Bytes.lit "XYZ " /\ tag_reserved tag = Bytes.zeros 4.
Proof.
  intros H. split; [exact (create_xyz_tag_len _ _ _ _ H)|].
  unfold create_xyz_tag in H. bind_inv H as xyz E. apply Ok_inj in H as <-.
  split.
  - apply (slice_app [] (Bytes.lit "XYZ ")); reflexivity.
  - apply (slice_app (Bytes.lit "XYZ ") [x00; x00; x00; x00]); reflexivity.
Qed.

(** ** The assembly loop on any list of tags *)

Lemma padded_data_aligned (tags : list (bytes * bytes)) :
  Bytes.len (padded_data tags) mod 4 = 0.
Proof.
  induction tags as [|t tags IH]; [reflexivity|].
  rewrite padded_data_cons, len_app.
  pose proof (pad_len_mod (snd t)) as Ht. fold (padded t) in Ht.
  rewrite Z.add_mod, Ht, IH by lia. reflexivity.
Qed.

(** X10. Whatever the tags, a run of the assembly loop that succeeds adds
    one table entry per tag, keeps what was already recorded, appends a
    multiple of 4 bytes to the data section, and advances the cursor by
    exactly the number of bytes it appended. *)
Theorem tag_loop_cursor (tags : list (bytes * bytes)) (st st' : assembly) :
  tag_loop tags st = Ok st' ->
  length (tag_table_entries st') = (length (tag_table_entries st) + length tags)%nat /\
  tag_table_entries st `prefix_of` tag_table_entries st' /\
  tag_data_section st `prefix_of` tag_data_section st' /\
  current_offset st' - current_offset st =
    Bytes.len (tag_data_section st') - Bytes.len (tag_data_section st) /\
  (current_offset st' - current_offset st) mod 4 = 0.
Proof.
  intros H. apply tag_loop_inv in H as (packed & Ht & Hl & Hd & Ho).
  apply Forall2_length in Hl. rewrite layout_length in Hl.
  rewrite Ht, Hd, Ho, length_app, len_app, <- Hl.
  split; [reflexivity|]. split; [now exists packed|].
  split; [now eexists|]. split; [lia|].
  replace (current_offset st + Bytes.len (padded_data tags) - current_offset st)
    with (Bytes.len (padded_data tags)) by lia.
  apply padded_data_aligned.
Qed.

Lemma tag_loop_cursor_witness :
  let tags := [(Bytes.lit "desc", Bytes.lit "hello"); (Bytes.lit "cprt", [])] in
  let st := Assembly [] [] 240 in
  let st' := Assembly [Bytes.lit "desc" ++ [x00; x00; x00; xf0] ++ [x00; x00; x00; x08];
                       Bytes.lit "cprt" ++ [x00; x00; x00; xf8] ++ [x00; x00; x00; x00]]
                      (Bytes.lit "hello" ++ [x00; x00; x00]) 248 in
  tag_loop tags st = Ok st' /\
  current_offset st' - current_offset st =
    Bytes.len (tag_data_section st') - Bytes.len (tag_data_section st).
Proof.
  intros tags st st'.
  assert (E : tag_loop tags st = Ok st') by (vm_compute; reflexivity).
  split; [exact E|].
  exact (proj1 (proj2 (proj2 (proj2 (tag_loop_cursor tags st st' E))))).
Defined.

(** ** More on every assembled profile *)

Lemma layout_aligned (tags : list (bytes * bytes)) :
  forall off : Z, off mod 4 = 0 ->
    Forall (fun e => e_offset e mod 4 = 0 /\ e_length e mod 4 = 0) (layout off tags).
Proof.
  induction tags as [|t tags IH]; intros off Hoff; simpl; constructor.
  - simpl. split; [exact Hoff | apply pad_len_mod].
  - apply IH. pose proof (pad_len_mod (snd t)) as Ht. fold (padded t) in Ht.
    rewrite Z.add_mod, Hoff, Ht by lia. reflexivity.
Qed.

Lemma layout_lookup (tags : list (bytes * bytes)) :
  forall (off : Z) (k : nat) (e : tag_entry),
    layout off tags !! k = Some e ->
    exists t, tags !! k = Some t /\ e_sig e = fst t /\
              e_length e = Bytes.len (padded t).
Proof.
  induction tags as [|t tags IH]; intros off k e H; [discriminate H|].
  destruct k as [|k]; simpl in H.
  - injection H as <-. exists t. auto.
  - exact (IH _ _ _ H).
Qed.

(** Each entry of the table points to the padded payload of its tag. *)
Lemma profile_payloads r g b d c (profile : bytes) :
  create_icc_profile_with r g b d c = Ok profile ->
  exists p : payloads,
    built r g b d c p /\
    read_tag_table profile = layout 240 (tag_signatures p) /\
    forall (k : nat) (e : tag_entry) (t : bytes * bytes),
      read_tag_table profile !! k = Some e ->
      tag_signatures p !! k = Some t ->
      e_sig e = fst t /\ tag_payload profile e = padded t.
Proof.
  intros H. apply profile_read in H as (p & Hb & _ & _ & Hr & _ & Hp).
  exists p. split; [exact Hb|]. split; [exact Hr|].
  intros k e t He Ht. rewrite Hr in He.
  split.
  - destruct (layout_lookup _ _ _ _ He) as (t' & Ht' & Hs & _). congruence.
  - exact (Forall2_lookup_lr _ _ _ _ _ _ Hp He Ht).
Qed.

Lemma padded_tag (sig tag : bytes) :
  exists k : Z, 0 <= k <= 3 /\ padded (sig, tag) = tag ++ Bytes.zeros k.
Proof.
  unfold padded. simpl. destruct (pad_shape tag) as (k & Hk & E & _). eauto.
Qed.

Lemma header_tail_fields :
  header_tail =
    take 8 header_tail ++ Bytes.lit "mntr" ++ Bytes.lit "RGB " ++ Bytes.lit "XYZ " ++
    creation_date ++ Bytes.lit "acsp" ++ Bytes.lit "MSFT" ++ drop 40 header_tail.
Proof. reflexivity. Qed.

Lemma tag_prefix_padded (ty tag : bytes) (k : Z) :
  tag_type tag = ty -> tag_reserved tag = Bytes.zeros 4 -> 8 <= Bytes.len tag ->
  tag_type (tag ++ Bytes.zeros k) = ty /\
  tag_reserved (tag ++ Bytes.zeros k) = Bytes.zeros 4 /\
  exists body, write_tag ty body = Ok (tag ++ Bytes.zeros k).
Proof.
  intros Hty Hres Hlen. unfold tag_type, tag_reserved in *.
  rewrite !slice_prefix by lia. split; [exact Hty|]. split; [exact Hres|].
  exists (drop 8 tag ++ Bytes.zeros k).
  transitivity (Ok (ty ++ Bytes.zeros 4 ++ drop 8 tag ++ Bytes.zeros k));
    [reflexivity|].
  f_equal. rewrite !app_assoc. f_equal. rewrite <- Hty, <- Hres.
  unfold Bytes.slice. simpl Z.to_nat. rewrite drop_0.
  rewrite <- (take_drop 4 tag) at 4. rewrite <- app_assoc. f_equal.
  change (Z.to_nat 4) with 4%nat.
  replace (drop 8 tag) with (drop 4 (drop 4 tag)) by now rewrite drop_drop.
  apply take_drop.
Qed.

(** The type every one of the nine payloads starts with. *)
Lemma built_types r g b d c (p : payloads) :
  built r g b d c p ->
  forall (k : nat) (t : bytes * bytes),
    tag_signatures p !! k = Some t ->
    tag_type (snd t) = type_at k /\ tag_reserved (snd t) = Bytes.zeros 4 /\
    8 <= Bytes.len (snd t).
Proof.
  intros (Hd & Hc & Hw & HrX & HgX & HbX & (cr & _ & Hr) & (cg & _ & Hg) & (cb & _ & Hb)).
  apply text_tag_facts in Hd as (Ld & Td & Rd & _).
  apply text_tag_facts in Hc as (Lc & Tc & Rc & _).
  apply xyz_tag_facts in Hw as (Lw & Tw & Rw).
  apply xyz_tag_facts in HrX as (LrX & TrX & RrX).
  apply xyz_tag_facts in HgX as (LgX & TgX & RgX).
  apply xyz_tag_facts in HbX as (LbX & TbX & RbX).
  apply curve_tag_facts in Hr as (Lr & Tr & Rr & _).
  apply curve_tag_facts in Hg as (Lg & Tg & Rg & _).
  apply curve_tag_facts in Hb as (Lb & Tb & Rb & _).
  intros k t Hk. unfold tag_signatures in Hk.
  do 9 (destruct k as [|k];
        [injection Hk as <-; simpl snd; split; [assumption|]; split; [assumption | lia]|]).
  discriminate Hk.
Qed.

Section AssembledProfileLayout.

Variables (r g b : Z) (d c : str) (profile : bytes).
Hypothesis Hprofile : create_icc_profile_with r g b d c = Ok profile.

(** X11. The length of an assembled profile is a multiple of 4, and so are
    the offset and the length of every entry of its tag table. *)
Theorem profile_aligned :
  Bytes.len profile mod 4 = 0 /\
  forall (k : nat) (e : tag_entry),
    read_tag_table profile !! k = Some e ->
    e_offset e mod 4 = 0 /\ e_length e mod 4 = 0.
Proof using Hprofile.
  destruct (profile_read _ _ _ _ _ _ Hprofile) as (p & _ & _ & _ & Hr & Hlen & _).
  split.
  - rewrite Hlen, Z.add_mod, padded_data_aligned by lia. reflexivity.
  - intros k e He. rewrite Hr in He.
    pose proof (layout_aligned (tag_signatures p) 240 eq_refl) as A.
    rewrite Forall_lookup in A. exact (A k e He).
Qed.

(** X12. Patching the size changes the first four bytes only: bytes 4 to
    127 of an assembled profile are those of the header the script built,
    with the class [mntr], the colour space [RGB ], the connection space
    [XYZ ], the magic [acsp] at offset 36 and the platform [MSFT]. *)
Theorem profile_header_kept :
  exists h : bytes,
    header = Ok h /\ Bytes.len h = 128 /\
    Bytes.slice 4 124 profile = drop 4 h /\
    Bytes.slice 12 4 profile = Bytes.lit "mntr" /\
    Bytes.slice 16 4 profile = Bytes.lit "RGB " /\
    Bytes.slice 20 4 profile = Bytes.lit "XYZ " /\
    Bytes.slice 36 4 profile = Bytes.lit "acsp" /\
    Bytes.slice 40 4 profile = Bytes.lit "MSFT".
Proof using Hprofile.
  destruct (profile_shape _ _ _ _ _ _ Hprofile)
    as (p & psize & pcount & packed & _ & Hs & _ & _ & Hp).
  apply pack_I_inv in Hs as (_ & Ls & _).
  exists header_bytes. split; [exact header_ok|]. split; [exact header_len|].
  fold header_tail. rewrite Hp. clear Hp.
  set (rest := pcount ++ concat packed ++ padded_data (tag_signatures p)).
  assert (L4 : Bytes.len psize = 4) by (unfold Bytes.len; lia).
  split; [apply slice_app; [lia | reflexivity]|].
  rewrite header_tail_fields, <- !app_assoc.
  set (pre := take 8 header_tail).
  assert (Lpre : Bytes.len pre = 8) by reflexivity.
  repeat split.
  - rewrite (app_assoc psize). apply slice_app; [rewrite len_app; lia | reflexivity].
  - rewrite (app_assoc pre), (app_assoc psize).
    apply slice_app; [rewrite !len_app, L4, Lpre; reflexivity | reflexivity].
  - rewrite (app_assoc (Bytes.lit "mntr")), (app_assoc pre), (app_assoc psize).
    apply slice_app; [rewrite !len_app, L4, Lpre; reflexivity | reflexivity].
  - rewrite (app_assoc (Bytes.lit "XYZ ")), (app_assoc (Bytes.lit "RGB ")),
      (app_assoc (Bytes.lit "mntr")), (app_assoc pre), (app_assoc psize).
    apply slice_app; [rewrite !len_app, L4, Lpre; reflexivity | reflexivity].
  - rewrite (app_assoc creation_date), (app_assoc (Bytes.lit "XYZ ")),
      (app_assoc (Bytes.lit "RGB ")),
      (app_assoc (Bytes.lit "mntr")), (app_assoc pre), (app_assoc psize).
    apply slice_app; [rewrite !len_app, L4, Lpre; reflexivity | reflexivity].
Qed.

(** X13. The two texts survive the trip through the file: the payloads the
    table records under [desc] and [cprt] decode to the description and to
    the copyright that were given. *)
Theorem profile_texts_round_trip :
  exists e0 e1 : tag_entry,
    read_tag_table profile !! 0%nat = Some e0 /\
    read_tag_table profile !! 1%nat = Some e1 /\
    e_sig e0 = Bytes.lit "desc" /\ e_sig e1 = Bytes.lit "cprt" /\
    read_text (tag_payload profile e0) = d /\
    read_text (tag_payload profile e1) = c.
Proof using Hprofile.
  destruct (profile_payloads _ _ _ _ _ _ Hprofile) as (p & Hb & Hr & Hp).
  destruct Hb as (Hd & Hc & _).
  assert (Hread : forall (sig tag : bytes) (t : str),
             create_text_desc_tag t = Ok tag -> read_text (padded (sig, tag)) = t).
  { intros sig tag t Ht.
    destruct (padded_tag sig tag) as (k & _ & ->).
    apply text_tag_facts in Ht as (L & _ & _ & Hn & Hrt & _).
    transitivity (read_text tag); [|exact Hrt]. unfold read_text.
    rewrite (slice_prefix tag _ 8 4) by lia. rewrite Hn.
    now rewrite slice_prefix by lia. }
  eexists _, _. rewrite Hr. unfold tag_signatures. cbn [layout fst].
  split; [reflexivity|]. split; [reflexivity|].
  split; [reflexivity|]. split; [reflexivity|].
  rewrite Hr in Hp. unfold tag_signatures in Hp. cbn [layout fst] in Hp.
  split.
  - destruct (Hp 0%nat _ _ eq_refl eq_refl) as [_ ->]. now apply Hread.
  - destruct (Hp 1%nat _ _ eq_refl eq_refl) as [_ ->]. now apply Hread.
Qed.

(** X14. The three tone curves survive the trip through the file: the
    payloads recorded under [rTRC], [gTRC] and [bTRC] are 524 bytes each
    and decode to the curves of the red, green and blue offsets. *)
Theorem profile_curves_round_trip :
  exists (er eg eb : tag_entry) (red green blue : list Z),
    read_tag_table profile !! 6%nat = Some er /\
    read_tag_table profile !! 7%nat = Some eg /\
    read_tag_table profile !! 8%nat = Some eb /\
    e_sig er = Bytes.lit "rTRC" /\ e_sig eg = Bytes.lit "gTRC" /\
    e_sig eb = Bytes.lit "bTRC" /\
    e_length er = 524 /\ e_length eg = 524 /\ e_length eb = 524 /\
    create_curve_data r = Ok red /\ read_curve (tag_payload profile er) = red /\
    create_curve_data g = Ok green /\ read_curve (tag_payload profile eg) = green /\
    create_curve_data b = Ok blue /\ read_curve (tag_payload profile eb) = blue.
Proof using Hprofile.
  destruct (profile_payloads _ _ _ _ _ _ Hprofile) as (p & Hb & Hr & Hp).
  destruct Hb as (_ & _ & _ & _ & _ & _ & (cr & Er & Tr) & (cg & Eg & Tg) & (cb & Eb & Tb)).
  assert (Hcurve : forall (sig tag : bytes) (o : Z) (curve : list Z),
             create_curve_data o = Ok curve -> create_curve_tag curve = Ok tag ->
             padded (sig, tag) = tag /\ Bytes.len tag = 524 /\ read_curve tag = curve).
  { intros sig tag o curve Ec Et.
    apply curve_tag_facts in Et as (L & _ & _ & Hrc).
    rewrite create_curve_data_ok in Ec. apply Ok_inj in Ec. subst curve.
    rewrite length_map in L. unfold range in L. rewrite length_seqZ in L.
    assert (L' : Bytes.len tag = 524) by lia.
    split; [|split; [exact L' | exact Hrc]].
    unfold padded. simpl. apply pad_aligned. now rewrite L'. }
  destruct (Hcurve (Bytes.lit "rTRC") _ _ _ Er Tr) as (Pr & Lr & Rr).
  destruct (Hcurve (Bytes.lit "gTRC") _ _ _ Eg Tg) as (Pg & Lg & Rg).
  destruct (Hcurve (Bytes.lit "bTRC") _ _ _ Eb Tb) as (Pb & Lb & Rb).
  exists (TagEntry (Bytes.lit "rTRC")
            (240 + Bytes.len (padded (Bytes.lit "desc", p_desc p))
                 + Bytes.len (padded (Bytes.lit "cprt", p_cprt p))
                 + Bytes.len (padded (Bytes.lit "wtpt", p_wtpt p))
                 + Bytes.len (padded (Bytes.lit "rXYZ", p_rXYZ p))
                 + Bytes.len (padded (Bytes.lit "gXYZ", p_gXYZ p))
                 + Bytes.len (padded (Bytes.lit "bXYZ", p_bXYZ p)))
            (Bytes.len (padded (Bytes.lit "rTRC", p_rTRC p)))).
  eexists _, _. exists cr, cg, cb.
  rewrite Hr in Hp |- *. unfold tag_signatures in Hp |- *. cbn [layout fst] in Hp |- *.
  split; [reflexivity|]. split; [reflexivity|]. split; [reflexivity|].
  split; [reflexivity|]. split; [reflexivity|]. split; [reflexivity|].
  cbn [e_length].
  destruct (Hp 6%nat _ _ eq_refl eq_refl) as [_ ->].
  destruct (Hp 7%nat _ _ eq_refl eq_refl) as [_ ->].
  destruct (Hp 8%nat _ _ eq_refl eq_refl) as [_ ->].
  rewrite Pr, Pg, Pb. repeat split; assumption.
Qed.

(** X15. Every payload of an assembled profile has the layout of
    [write_tag]: a type signature, four zero bytes, then the body.  The
    type is [desc] for the first two tags, [XYZ ] for the next four and
    [curv] for the last three. *)
Theorem profile_tag_types (k : nat) (e : tag_entry) :
  read_tag_table profile !! k = Some e ->
  tag_type (tag_payload profile e) = type_at k /\
  tag_reserved (tag_payload profile e) = Bytes.zeros 4 /\
  exists body, write_tag (type_at k) body = Ok (tag_payload profile e).
Proof using Hprofile.
  intros He.
  destruct (profile_payloads _ _ _ _ _ _ Hprofile) as (p & Hb & Hr & Hp).
  pose proof He as He'. rewrite Hr in He'.
  destruct (layout_lookup _ _ _ _ He') as ([sig tag] & Ht & _).
  destruct (Hp k e _ He Ht) as [_ ->].
  destruct (built_types _ _ _ _ _ _ Hb k _ Ht) as (Hty & Hres & Hlen).
  destruct (padded_tag sig tag) as (n & _ & ->).
  now apply tag_prefix_padded.
Qed.

(** X16. The size of an assembled profile depends on the lengths of the two
    texts only: 1892 bytes plus, for each text, its length plus 24 rounded
    up to a multiple of 4. *)
Theorem profile_length :
  Bytes.len profile =
    1892 + pad4 (Z.of_nat (length d) + 24) + pad4 (Z.of_nat (length c) + 24).
Proof using Hprofile.
  destruct (profile_read _ _ _ _ _ _ Hprofile) as (p & Hb & _ & _ & _ & Hlen & _).
  destruct Hb as (Hd & Hc & Hw & HrX & HgX & HbX & (cr & Er & Hr) & (cg & Eg & Hg)
                  & (cb & Eb & Hbl)).
  apply create_text_desc_tag_len in Hd, Hc.
  apply create_xyz_tag_len in Hw, HrX, HgX, HbX.
  apply create_curve_tag_len in Hr, Hg, Hbl.
  rewrite create_curve_data_ok in Er, Eg, Eb.
  apply Ok_inj in Er, Eg, Eb. subst cr cg cb.
  rewrite length_map in Hr, Hg, Hbl. unfold range in Hr, Hg, Hbl.
  rewrite length_seqZ in Hr, Hg, Hbl.
  assert (Hpad : forall t : bytes * bytes,
             Bytes.len (padded t) = pad4 (Bytes.len (snd t))).
  { intros t. unfold padded. destruct (pad_shape (snd t)) as (k & _ & _ & _ & E).
    exact E. }
  rewrite Hlen. unfold tag_signatures, padded_data. cbn [map concat].
  rewrite !len_app, !Hpad. cbn [snd].
  rewrite Hd, Hc, Hw, HrX, HgX, HbX, Hr, Hg, Hbl.
  change (Bytes.len []) with 0. change (pad4 20) with 20.
  change (pad4 (12 + 2 * Z.of_nat (Z.to_nat (Z.of_nat 256)))) with 524. lia.
Qed.

End AssembledProfileLayout.

(** The script's own profile as the instance of the six theorems. *)

Lemma profile_aligned_witness :
  create_icc_profile_with 22 0 0
    (text "Red+22 Test Profile") (text "Public Domain") = Ok red_plus_22 /\
  Bytes.len red_plus_22 mod 4 = 0 /\
  read_tag_table red_plus_22 !! 1%nat = Some (TagEntry (Bytes.lit "cprt") 284 40) /\
  284 mod 4 = 0 /\ 40 mod 4 = 0.
Proof.
  assert (E : create_icc_profile_with 22 0 0
                (text "Red+22 Test Profile") (text "Public Domain") = Ok red_plus_22)
    by (vm_compute; reflexivity).
  assert (E1 : read_tag_table red_plus_22 !! 1%nat
               = Some (TagEntry (Bytes.lit "cprt") 284 40))
    by (vm_compute; reflexivity).
  destruct (profile_aligned 22 0 0 _ _ red_plus_22 E) as [Hl He].
  split; [exact E|]. split; [exact Hl|]. split; [exact E1|].
  exact (He 1%nat _ E1).
Defined.

Lemma profile_header_kept_witness :
  create_icc_profile_with 22 0 0
    (text "Red+22 Test Profile") (text "Public Domain") = Ok red_plus_22 /\
  exists h : bytes,
    header = Ok h /\ Bytes.len h = 128 /\
    Bytes.slice 4 124 red_plus_22 = drop 4 h /\
    Bytes.slice 12 4 red_plus_22 = Bytes.lit "mntr" /\
    Bytes.slice 16 4 red_plus_22 = Bytes.lit "RGB " /\
    Bytes.slice 20 4 red_plus_22 = Bytes.lit "XYZ " /\
    Bytes.slice 36 4 red_plus_22 = Bytes.lit "acsp" /\
    Bytes.slice 40 4 red_plus_22 = Bytes.lit "MSFT".
Proof.
  assert (E : create_icc_profile_with 22 0 0
                (text "Red+22 Test Profile") (text "Public Domain") = Ok red_plus_22)
    by (vm_compute; reflexivity).
  split; [exact E|]. exact (profile_header_kept 22 0 0 _ _ red_plus_22 E).
Defined.

Lemma profile_texts_round_trip_witness :
  let d := text "Red+22 Test Profile" in
  let c := text "Public Domain" in
  create_icc_profile_with 22 0 0 d c = Ok red_plus_22 /\
  exists e0 e1 : tag_entry,
    read_tag_table red_plus_22 !! 0%nat = Some e0 /\
    read_tag_table red_plus_22 !! 1%nat = Some e1 /\
    e_sig e0 = Bytes.lit "desc" /\ e_sig e1 = Bytes.lit "cprt" /\
    read_text (tag_payload red_plus_22 e0) = d /\
    read_text (tag_payload red_plus_22 e1) = c.
Proof.
  intros d c.
  assert (E : create_icc_profile_with 22 0 0 d c = Ok red_plus_22)
    by (vm_compute; reflexivity).
  split; [exact E|]. exact (profile_texts_round_trip 22 0 0 d c red_plus_22 E).
Defined.

Lemma profile_curves_round_trip_witness :
  create_icc_profile_with 22 0 0
    (text "Red+22 Test Profile") (text "Public Domain") = Ok red_plus_22 /\
  exists (er eg eb : tag_entry) (red green blue : list Z),
    read_tag_table red_plus_22 !! 6%nat = Some er /\
    read_tag_table red_plus_22 !! 7%nat = Some eg /\
    read_tag_table red_plus_22 !! 8%nat = Some eb /\
    e_sig er = Bytes.lit "rTRC" /\ e_sig eg = Bytes.lit "gTRC" /\
    e_sig eb = Bytes.lit "bTRC" /\
    e_length er = 524 /\ e_length eg = 524 /\ e_length eb = 524 /\
    create_curve_data 22 = Ok red /\ read_curve (tag_payload red_plus_22 er) = red /\
    create_curve_data 0 = Ok green /\ read_curve (tag_payload red_plus_22 eg) = green /\
    create_curve_data 0 = Ok blue /\ read_curve (tag_payload red_plus_22 eb) = blue.
Proof.
  assert (E : create_icc_profile_with 22 0 0
                (text "Red+22 Test Profile") (text "Public Domain") = Ok red_plus_22)
    by (vm_compute; reflexivity).
  split; [exact E|]. exact (profile_curves_round_trip 22 0 0 _ _ red_plus_22 E).
Defined.

Lemma profile_tag_types_witness :
  let e := TagEntry (Bytes.lit "wtpt") 324 20 in
  create_icc_profile_with 22 0 0
    (text "Red+22 Test Profile") (text "Public Domain") = Ok red_plus_22 /\
  read_tag_table red_plus_22 !! 2%nat = Some e /\
  tag_type (tag_payload red_plus_22 e) = Bytes.lit "XYZ " /\
  tag_reserved (tag_payload red_plus_22 e) = Bytes.zeros 4 /\
  exists body, write_tag (Bytes.lit "XYZ ") body = Ok (tag_payload red_plus_22 e).
Proof.
  intros e.
  assert (E : create_icc_profile_with 22 0 0
                (text "Red+22 Test Profile") (text "Public Domain") = Ok red_plus_22)
    by (vm_compute; reflexivity).
  assert (E2 : read_tag_table red_plus_22 !! 2%nat = Some e)
    by (vm_compute; reflexivity).
  split; [exact E|]. split; [exact E2|].
  exact (profile_tag_types 22 0 0 _ _ red_plus_22 E 2%nat e E2).
Defined.

Lemma profile_length_witness :
  let d := text "Red+22 Test Profile" in
  let c := text "Public Domain" in
  create_icc_profile_with 22 0 0 d c = Ok red_plus_22 /\
  Bytes.len red_plus_22 =
    1892 + pad4 (Z.of_nat (length d) + 24) + pad4 (Z.of_nat (length c) + 24).
Proof.
  intros d c.
  assert (E : create_icc_profile_with 22 0 0 d c = Ok red_plus_22)
    by (vm_compute; reflexivity).
  split; [exact E|]. exact (profile_length 22 0 0 d c red_plus_22 E).
Defined.

(** ** When the profile is built, and what main changes *)

(** X17. For texts whose lengths add up to at most 4,000,000,000 and any
    three integer offsets, the profile is built exactly when both texts are
    ASCII; no offset makes the encoder fail. *)
Theorem profile_built_iff_ascii r g b d c :
  Z.of_nat (length d) + Z.of_nat (length c) <= 4000000000 ->
  (exists profile, create_icc_profile_with r g b d c = Ok profile) <->
  all_ascii d && all_ascii c = true.
Proof.
  intros Hlen. split.
  - intros [profile H].
    destruct (all_ascii d) eqn:Ed.
    + destruct (all_ascii c) eqn:Ec; [reflexivity|]. exfalso.
      destruct (create_text_desc_tag_ok d ltac:(lia) Ed) as [tag Htag].
      destruct (create_text_desc_tag_raises c ltac:(lia) Ec) as (s & e & Hr & _).
      rewrite (profile_raises_cprt r g b d c _ _ Htag Hr) in H. discriminate H.
    + exfalso.
      destruct (create_text_desc_tag_raises d ltac:(lia) Ed) as (s & e & Hr & _).
      rewrite (profile_raises_desc r g b d c _ Hr) in H. discriminate H.
  - intros H. apply andb_prop in H as [Hd Hc].
    now apply create_icc_profile_with_ok.
Qed.

Lemma profile_built_iff_ascii_witness :
  let d := text "Red+22 Test Profile" in
  let c := [67; 169] in
  Z.of_nat (length d) + Z.of_nat (length c) <= 4000000000 /\
  ((exists profile, create_icc_profile_with (-300) 0 999 d c = Ok profile) <->
   all_ascii d && all_ascii c = true).
Proof.
  intros d c.
  assert (H : Z.of_nat (length d) + Z.of_nat (length c) <= 4000000000)
    by (vm_compute; discriminate).
  split; [exact H|]. exact (profile_built_iff_ascii (-300) 0 999 d c H).
Defined.


